(** * discord_sync.py: a shallow embedding and its verified properties

    The program is a batch job: it reads two environment values, issues
    one HTTP GET for the messages of a channel, flattens the attachments
    of the messages into records, sorts the records newest first and
    writes them as JSON to [docs/files.json].

    The embedding keeps Python's dynamic typing: every value decoded from
    the response is a [pyval], and every operation that Python may refuse
    ([.get] on a non-dict, iteration over an int, [<] between a naive and
    an aware datetime) returns a [result] that can be [Raise].  The
    effects (environment, standard output, the network, the file system)
    are fields of a [world] threaded through a state-and-exception monad.

    Strings are [string]s of bytes (UTF-8); JSON numbers are integers. *)

From Stdlib Require Import ZArith List Bool Ascii String Lia.
From Stdlib Require Import Permutation Sorted.
From Stdlib Require Import DecimalString.
Import ListNotations.

Set Warnings "-register-all".

Open Scope string_scope.
Open Scope Z_scope.

(* ================================================================== *)
(** ** Python values, exceptions and results *)

Inductive exn : Type :=
| SystemExit (code : Z)
| AttributeError
| TypeError
| ValueError
| KeyError
| FileExistsError
| IsADirectoryError
| NotADirectoryError
| FileNotFoundError
| UnicodeEncodeError
| RequestException.

Inductive result (A : Type) : Type :=
| Ok (a : A)
| Raise (e : exn).

Arguments Ok {A} a.
Arguments Raise {A} e.

Definition rbind {A B} (r : result A) (k : A -> result B) : result B :=
  match r with
  | Ok a => k a
  | Raise e => Raise e
  end.

Declare Scope result_scope.
Delimit Scope result_scope with res.
Notation "x <- r ;; k" := (rbind r (fun x => k))
  (at level 61, r at next level, right associativity) : result_scope.

(** What [json.loads] produces (numbers restricted to integers).  A dict
    keeps its keys in insertion order, as Python's does. *)
Inductive pyval : Type :=
| PNone
| PBool (b : bool)
| PInt (z : Z)
| PStr (s : string)
| PList (l : list pyval)
| PDict (d : list (string * pyval)).

(** [bool(v)] *)
Definition py_truthy (v : pyval) : bool :=
  match v with
  | PNone => false
  | PBool b => b
  | PInt z => negb (z =? 0)
  | PStr s => negb (s =? "")%string
  | PList l => match l with [] => false | _ => true end
  | PDict d => match d with [] => false | _ => true end
  end.

Fixpoint dict_lookup (k : string) (d : list (string * pyval)) : option pyval :=
  match d with
  | [] => None
  | (k', v) :: d' => if (k' =? k)%string then Some v else dict_lookup k d'
  end.

(** [v.get(k, default)]: only a dict has the method. *)
Definition py_get (v : pyval) (k : string) (default : pyval) : result pyval :=
  match v with
  | PDict d =>
      match dict_lookup k d with
      | Some x => Ok x
      | None => Ok default
      end
  | _ => Raise AttributeError
  end.

(** [v[k]] with a string key. *)
Definition py_getitem (v : pyval) (k : string) : result pyval :=
  match v with
  | PDict d =>
      match dict_lookup k d with
      | Some x => Ok x
      | None => Raise KeyError
      end
  | _ => Raise TypeError
  end.

(** The items a [for] loop over [v] visits: the elements of a list, the
    characters of a string, the keys of a dict. *)
Definition py_iter (v : pyval) : result (list pyval) :=
  match v with
  | PList l => Ok l
  | PStr s => Ok (map (fun c => PStr (String c EmptyString)) (list_ascii_of_string s))
  | PDict d => Ok (map (fun kv => PStr (fst kv)) d)
  | _ => Raise TypeError
  end.

(** The number of bytes of the UTF-8 character whose first byte is [c]. *)
Definition utf8_width (c : ascii) : nat :=
  let n := nat_of_ascii c in
  if (n <? 128)%nat then 1%nat
  else if (n <? 224)%nat then 2%nat
  else if (n <? 240)%nat then 3%nat
  else 4%nat.

(** The number of characters of a string held as its UTF-8 bytes: the
    bytes that do not continue a character. *)
Fixpoint str_len (s : string) : nat :=
  match s with
  | EmptyString => O
  | String c s' =>
      let n := nat_of_ascii c in
      if ((128 <=? n) && (n <? 192))%nat then str_len s'
      else S (str_len s')
  end.

(** [len(v)] *)
Definition py_len (v : pyval) : result nat :=
  match v with
  | PList l => Ok (List.length l)
  | PStr s => Ok (str_len s)
  | PDict d => Ok (List.length d)
  | _ => Raise TypeError
  end.

(** [a or b], with [b] evaluated only when [a] is falsy. *)
Definition py_or (a : pyval) (b : result pyval) : result pyval :=
  if py_truthy a then Ok a else b.

(** [str(n)] for an integer. *)
Definition str_of_Z (z : Z) : string :=
  NilZero.string_of_int (Z.to_int z).

Definition str_of_nat (n : nat) : string := str_of_Z (Z.of_nat n).

(* ================================================================== *)
(** ** The world and the program monad *)

Definition path := list string.

Record request : Type := mkRequest {
  req_url : string;
  req_headers : list (string * string);
  req_params : list (string * Z);
  req_timeout : Z
}.

Record response : Type := mkResponse {
  status_code : Z;
  text : string;
  (** what [response.json()] gives: the decoded body, or [ValueError]
      when the body is not JSON *)
  json : result pyval
}.

Record world : Type := mkWorld {
  environ : list (string * string);
  stdout : list string;                (* lines printed, oldest first *)
  remote : request -> result response; (* the platform behind [requests.get] *)
  sent : list request;                 (* requests issued, oldest first *)
  dirs : list path;                    (* directories that exist *)
  files : list (path * string)         (* regular files and their contents *)
}.

Definition M (A : Type) : Type := world -> result A * world.

Definition ret {A} (a : A) : M A := fun w => (Ok a, w).

Definition bind {A B} (m : M A) (k : A -> M B) : M B :=
  fun w =>
    match m w with
    | (Ok a, w') => k a w'
    | (Raise e, w') => (Raise e, w')
    end.

Definition lift {A} (r : result A) : M A := fun w => (r, w).

Declare Scope prog_scope.
Delimit Scope prog_scope with prog.
Notation "x <- m ;; k" := (bind m (fun x => k))
  (at level 61, m at next level, right associativity) : prog_scope.
Notation "m ;; k" := (bind m (fun _ => k))
  (at level 61, right associativity) : prog_scope.

Definition print (line : string) : M unit :=
  fun w => (Ok tt,
            mkWorld (environ w) (stdout w ++ [line]) (remote w) (sent w)
                    (dirs w) (files w)).

(** [sys.exit(code)] *)
Definition sys_exit {A} (code : Z) : M A := lift (Raise (SystemExit code)).

(** The exit status of the process for the outcome of [main]: the code
    of a [SystemExit], and 1 for any other uncaught exception. *)
Definition exit_status {A} (r : result A) : Z :=
  match r with
  | Ok _ => 0
  | Raise (SystemExit c) => c
  | Raise _ => 1
  end.

(* ================================================================== *)
(** ** extract_attachments *)

(** The inner loop: one [file_info] dict per attachment, appended. *)
Fixpoint extract_inner (items : list pyval) (timestamp author_name : pyval)
    (attachments : list pyval) : result (list pyval) :=
  match items with
  | [] => Ok attachments
  | attachment :: rest =>
      (name <- py_get attachment "filename" (PStr "unknown") ;;
       url <- py_get attachment "url" (PStr "") ;;
       size <- py_get attachment "size" (PInt 0) ;;
       content_type <- py_get attachment "content_type" (PStr "") ;;
       let file_info :=
         PDict [("name", name);
                ("url", url);
                ("uploaded_at", timestamp);
                ("author", author_name);
                ("size", size);
                ("content_type", content_type)] in
       extract_inner rest timestamp author_name (attachments ++ [file_info]))%res
  end.

(** [author.get("global_name") or author.get("username") or "Unknown"] *)
Definition author_name_of (author : pyval) : result pyval :=
  (g <- py_get author "global_name" PNone ;;
   py_or g (u <- py_get author "username" PNone ;;
            py_or u (Ok (PStr "Unknown"))))%res.

(** The outer loop over the messages, with the accumulator
    [attachments]. *)
Fixpoint extract_loop (msgs : list pyval) (attachments : list pyval)
    : result (list pyval) :=
  match msgs with
  | [] => Ok attachments
  | msg :: rest =>
      (a <- py_get msg "attachments" PNone ;;
       if negb (py_truthy a) then extract_loop rest attachments
       else
         author <- py_get msg "author" (PDict []) ;;
         author_name <- author_name_of author ;;
         timestamp <- py_get msg "timestamp" (PStr "") ;;
         atts <- py_getitem msg "attachments" ;;
         items <- py_iter atts ;;
         attachments' <- extract_inner items timestamp author_name attachments ;;
         extract_loop rest attachments')%res
  end.

Definition extract_attachments (messages : pyval) : M (list pyval) :=
  (msgs <- lift (py_iter messages) ;;
   attachments <- lift (extract_loop msgs []) ;;
   print ("Extracted " ++ str_of_nat (List.length attachments) ++ " attachments") ;;
   ret attachments)%prog.

(* ================================================================== *)
(** ** datetime

    The part of Python's [datetime] the sorter uses: the constructor's
    range checks, [datetime.min], [fromisoformat] and the comparison
    [<], which Python refuses between a naive value (no UTC offset) and
    an aware one. *)

Record datetime : Type := mkDatetime {
  year : Z; month : Z; day : Z;
  hour : Z; minute : Z; second : Z; microsecond : Z;
  (** [None] for a naive value, else the UTC offset in microseconds *)
  tzinfo : option Z
}.

Definition is_leap (y : Z) : bool :=
  (y mod 4 =? 0) && (negb (y mod 100 =? 0) || (y mod 400 =? 0)).

Definition days_in_month (y m : Z) : Z :=
  if m =? 2 then (if is_leap y then 29 else 28)
  else if (m =? 4) || (m =? 6) || (m =? 9) || (m =? 11) then 30
  else 31.

Definition days_before_year (y : Z) : Z :=
  let y := y - 1 in y * 365 + y / 4 - y / 100 + y / 400.

Definition days_before_month (y m : Z) : Z :=
  fold_left (fun acc k => acc + days_in_month y (Z.of_nat k))
            (seq 1 (Z.to_nat (m - 1))) 0.

Definition ymd2ord (y m d : Z) : Z :=
  days_before_year y + days_before_month y m + d.

Definition in_range (lo x hi : Z) : bool := (lo <=? x) && (x <=? hi).

Definition day_us : Z := 86400 * 1000000.

(** [datetime(y, m, d, hh, mm, ss, us, tzinfo)], with [ValueError] for
    a field out of range. *)
Definition datetime_new (y m d hh mm ss us : Z) (tz : option Z)
    : result datetime :=
  if in_range 1 y 9999 && in_range 1 m 12 && in_range 1 d (days_in_month y m)
     && in_range 0 hh 23 && in_range 0 mm 59 && in_range 0 ss 59
     && in_range 0 us 999999
     && match tz with
        | None => true
        | Some off => (- day_us <? off) && (off <? day_us)
        end
  then Ok (mkDatetime y m d hh mm ss us tz)
  else Raise ValueError.

(** [datetime.min]: naive. *)
Definition datetime_min : datetime := mkDatetime 1 1 1 0 0 0 0 None.

(** Microseconds from 0001-01-01T00:00:00 to the wall-clock fields. *)
Definition wall_micros (t : datetime) : Z :=
  ((((ymd2ord (year t) (month t) (day t) - 1) * 24 + hour t) * 60
    + minute t) * 60 + second t) * 1000000 + microsecond t.

(** [a < b]: by the fields between naive values, by the UTC instant
    between aware ones, and a [TypeError] across the two kinds. *)
Definition datetime_lt (a b : datetime) : result bool :=
  match tzinfo a, tzinfo b with
  | None, None => Ok (wall_micros a <? wall_micros b)
  | Some oa, Some ob => Ok (wall_micros a - oa <? wall_micros b - ob)
  | _, _ => Raise TypeError
  end.

(** *** fromisoformat

    The documented grammar of Python 3.7 to 3.10,
    [YYYY-MM-DD[*HH[:MM[:SS[.fff[fff]]]][+HH:MM[:SS[.ffffff]]]]], with
    [*] any one character, of one to four bytes in a string held as
    UTF-8; an offset whose whole seconds are zero is UTC.  Python 3.11
    and later accept more spellings (fractions of any length, a date
    without dashes, a bare [Z]); the timestamps of the platform,
    [YYYY-MM-DDTHH:MM:SS[.ffffff]+00:00], are read alike by all. *)

Definition digit_val (c : ascii) : option Z :=
  let n := Z.of_nat (nat_of_ascii c) in
  if (48 <=? n) && (n <=? 57) then Some (n - 48) else None.

Fixpoint parse_digits_from (acc : Z) (s : string) : option Z :=
  match s with
  | EmptyString => Some acc
  | String c s' =>
      match digit_val c with
      | Some d => parse_digits_from (acc * 10 + d) s'
      | None => None
      end
  end.

(** A non-empty string of decimal digits. *)
Definition parse_digits (s : string) : option Z :=
  match s with
  | EmptyString => None
  | _ => parse_digits_from 0 s
  end.

(** [s[n:]] *)
Fixpoint drop_str (n : nat) (s : string) : string :=
  match n, s with
  | O, _ => s
  | S n', String _ s' => drop_str n' s'
  | S _, EmptyString => EmptyString
  end.

Definition slen (s : string) : Z := Z.of_nat (String.length s).

Definition obind {A B} (o : option A) (k : A -> option B) : option B :=
  match o with Some a => k a | None => None end.

Definition parse_isoformat_date (dstr : string) : option (Z * Z * Z) :=
  if negb (slen dstr =? 10) then None
  else
    obind (parse_digits (substring 0 4 dstr)) (fun y =>
    if negb (substring 4 1 dstr =? "-")%string then None else
    obind (parse_digits (substring 5 2 dstr)) (fun m =>
    if negb (substring 7 1 dstr =? "-")%string then None else
    obind (parse_digits (substring 8 2 dstr)) (fun d =>
    Some (y, m, d)))).

(** [HH[:MM[:SS[.fff[fff]]]]] as hour, minute, second, microsecond. *)
Definition parse_hh_mm_ss_ff (tstr : string) : option (Z * Z * Z * Z) :=
  obind (parse_digits (substring 0 2 tstr)) (fun hh =>
  if slen tstr =? 2 then Some (hh, 0, 0, 0) else
  if negb (substring 2 1 tstr =? ":")%string then None else
  obind (parse_digits (substring 3 2 tstr)) (fun mm =>
  if slen tstr =? 5 then Some (hh, mm, 0, 0) else
  if negb (substring 5 1 tstr =? ":")%string then None else
  obind (parse_digits (substring 6 2 tstr)) (fun ss =>
  if slen tstr =? 8 then Some (hh, mm, ss, 0) else
  if negb (substring 8 1 tstr =? ".")%string then None else
  let frac := drop_str 9 tstr in
  if slen frac =? 6 then
    obind (parse_digits frac) (fun us => Some (hh, mm, ss, us))
  else if slen frac =? 3 then
    obind (parse_digits frac) (fun ms => Some (hh, mm, ss, ms * 1000))
  else None))).

(** The position of the first ['+'] or ['-'] of [s]. *)
Fixpoint find_sign (s : string) : option (nat * ascii) :=
  match s with
  | EmptyString => None
  | String c s' =>
      if ((c =? "+") || (c =? "-"))%char then Some (O, c)
      else match find_sign s' with
           | Some (n, sg) => Some (S n, sg)
           | None => None
           end
  end.

Definition parse_isoformat_time (tstr : string)
    : option (Z * Z * Z * Z * option Z) :=
  match find_sign tstr with
  | None =>
      obind (parse_hh_mm_ss_ff tstr) (fun t => Some (t, None))
  | Some (pos, sg) =>
      obind (parse_hh_mm_ss_ff (substring 0 pos tstr)) (fun t =>
      let tzstr := drop_str (S pos) tstr in
      if negb ((slen tzstr =? 5) || (slen tzstr =? 8) || (slen tzstr =? 15))
      then None
      else
        obind (parse_hh_mm_ss_ff tzstr) (fun tz =>
        let '(h, m, s, us) := tz in
        let td := ((h * 3600 + m * 60 + s) * 1000000 + us) in
        if h * 3600 + m * 60 + s =? 0 then Some (t, Some 0)
        else Some (t, Some (if (sg =? "-")%char then - td else td))))
  end.

(** The bytes of the separator, one character after the ten of the
    date. *)
Definition separator_width (date_string : string) : nat :=
  match drop_str 10 date_string with
  | String c _ => utf8_width c
  | EmptyString => 1%nat
  end.

Definition fromisoformat (date_string : string) : result datetime :=
  match parse_isoformat_date (substring 0 10 date_string) with
  | None => Raise ValueError
  | Some (y, m, d) =>
      if slen date_string =? 10 then datetime_new y m d 0 0 0 0 None
      else
        match parse_isoformat_time
                (drop_str (10 + separator_width date_string) date_string) with
        | None => Raise ValueError
        | Some (hh, mm, ss, us, tz) => datetime_new y m d hh mm ss us tz
        end
  end.

(* ================================================================== *)
(** ** String methods used by the sorter *)

(** [s.replace(c, new)] for a one-character pattern. *)
Fixpoint str_replace (c : ascii) (new : string) (s : string) : string :=
  match s with
  | EmptyString => EmptyString
  | String x s' =>
      if (x =? c)%char then new ++ str_replace c new s'
      else String x (str_replace c new s')
  end.

Fixpoint str_has_char (c : ascii) (s : string) : bool :=
  match s with
  | EmptyString => false
  | String x s' => (x =? c)%char || str_has_char c s'
  end.

(** ["." in v] for a one-character needle: substring test on a string,
    membership on a list, key test on a dict, [TypeError] otherwise. *)
Definition py_contains_char (c : ascii) (v : pyval) : result bool :=
  match v with
  | PStr s => Ok (str_has_char c s)
  | PList l =>
      Ok (existsb (fun e => match e with
                            | PStr s => (s =? String c EmptyString)%string
                            | _ => false
                            end) l)
  | PDict d => Ok (existsb (fun kv => (fst kv =? String c EmptyString)%string) d)
  | _ => Raise TypeError
  end.

(** [v.replace("Z", "+00:00")]: a string method. *)
Definition py_replace_Z (v : pyval) : result string :=
  match v with
  | PStr s => Ok (str_replace "Z" "+00:00" s)
  | _ => Raise AttributeError
  end.

(* ================================================================== *)
(** ** sort_attachments *)

(** [try: body except (ValueError, TypeError): handler] *)
Definition try_value_type {A} (body : result A) (handler : result A) : result A :=
  match body with
  | Raise ValueError => handler
  | Raise TypeError => handler
  | r => r
  end.

(** The branch taken when [ts] contains a dot:
    [datetime.fromisoformat(ts.replace("Z", "+00:00"))]. *)
Definition parse_with_microseconds (ts : pyval) : result datetime :=
  (s <- py_replace_Z ts ;; fromisoformat s)%res.

(** The branch taken when it does not: the same expression. *)
Definition parse_without_microseconds (ts : pyval) : result datetime :=
  (s <- py_replace_Z ts ;; fromisoformat s)%res.

(** The key function, with both branches of the source. *)
Definition parse_timestamp (item : pyval) : result datetime :=
  try_value_type
    (ts <- py_get item "uploaded_at" (PStr "") ;;
     if py_truthy ts then
       has_dot <- py_contains_char "." ts ;;
       if has_dot then parse_with_microseconds ts
       else parse_without_microseconds ts
     else Ok datetime_min)%res
    (Ok datetime_min).

(** *** sorted(iterable, key=..., reverse=...)

    As CPython's [list.sort]: the keys are computed first, left to right;
    with [reverse] the list is reversed, sorted stably in ascending
    order, and reversed again; the sort compares keys with [<] only, and
    an exception of a key or a comparison ends it.  The ascending sort
    is the insertion of each element after the elements not greater
    than it. *)
Section Sorted.
Context {A K : Type}.
Variable key : A -> result K.
Variable lt : K -> K -> result bool.

Fixpoint keyed (l : list A) : result (list (K * A)) :=
  match l with
  | [] => Ok []
  | x :: rest =>
      (k <- key x ;;
       ks <- keyed rest ;;
       Ok ((k, x) :: ks))%res
  end.

Fixpoint insert (x : K * A) (run : list (K * A)) : result (list (K * A)) :=
  match run with
  | [] => Ok [x]
  | y :: rest =>
      (b <- lt (fst x) (fst y) ;;
       if b then Ok (x :: y :: rest)
       else r <- insert x rest ;; Ok (y :: r))%res
  end.

Fixpoint sort_run (todo run : list (K * A)) : result (list (K * A)) :=
  match todo with
  | [] => Ok run
  | x :: rest => (run' <- insert x run ;; sort_run rest run')%res
  end.

Definition sorted (reverse : bool) (l : list A) : result (list A) :=
  (kvs <- keyed l ;;
   s <- sort_run (if reverse then rev kvs else kvs) [] ;;
   Ok (map snd (if reverse then rev s else s)))%res.
End Sorted.

Definition sort_attachments (attachments : list pyval) : result (list pyval) :=
  sorted parse_timestamp datetime_lt true attachments.

(** The same key function with the two branches unified into one
    parsing path, as the specification allows an implementer to write
    it. *)
Definition parse_timestamp_unified (item : pyval) : result datetime :=
  try_value_type
    (ts <- py_get item "uploaded_at" (PStr "") ;;
     if py_truthy ts then parse_with_microseconds ts
     else Ok datetime_min)%res
    (Ok datetime_min).

Definition sort_attachments_unified (attachments : list pyval)
    : result (list pyval) :=
  sorted parse_timestamp_unified datetime_lt true attachments.

(* ================================================================== *)
(** ** get_env_vars *)

Fixpoint assoc_get {V : Type} (k : string) (l : list (string * V)) : option V :=
  match l with
  | [] => None
  | (k', v) :: l' => if (k' =? k)%string then Some v else assoc_get k l'
  end.

(** [os.environ.get(name)] *)
Definition environ_get (name : string) : M (option string) :=
  fun w => (Ok (assoc_get name (environ w)), w).

(** [not v] for the result of [os.environ.get]: [None] and the empty
    string are falsy. *)
Definition env_missing (v : option string) : bool :=
  match v with
  | None => true
  | Some s => (s =? "")%string
  end.

Definition env_value (v : option string) : string :=
  match v with
  | None => ""
  | Some s => s
  end.

Definition get_env_vars : M (string * string) :=
  (token <- environ_get "DISCORD_BOT_TOKEN" ;;
   channel_id <- environ_get "DISCORD_CHANNEL_ID" ;;
   (if env_missing token then
      print "ERROR: DISCORD_BOT_TOKEN environment variable not set" ;;
      sys_exit 1
    else ret tt) ;;
   (if env_missing channel_id then
      print "ERROR: DISCORD_CHANNEL_ID environment variable not set" ;;
      sys_exit 1
    else ret tt) ;;
   ret (env_value token, env_value channel_id))%prog.

(* ================================================================== *)
(** ** fetch_messages *)

(** [requests.get(url, headers=..., params=..., timeout=...)]: the
    request goes out, and the platform answers or the transport fails. *)
Definition requests_get (r : request) : M response :=
  fun w =>
    (remote w r,
     mkWorld (environ w) (stdout w) (remote w) (sent w ++ [r])
             (dirs w) (files w)).

Definition fetch_messages (token channel_id : string) (limit : Z) : M pyval :=
  let url := "https://discord.com/api/v10/channels/" ++ channel_id ++ "/messages" in
  let headers := [("Authorization", "Bot " ++ token);
                  ("Content-Type", "application/json")] in
  let params := [("limit", Z.min limit 100)] in
  (print ("Fetching up to " ++ str_of_Z limit ++ " messages from channel "
          ++ channel_id ++ "...") ;;
   response <- requests_get (mkRequest url headers params 30) ;;
   if status_code response =? 200 then
     messages <- lift (json response) ;;
     n <- lift (py_len messages) ;;
     print ("Successfully fetched " ++ str_of_nat n ++ " messages") ;;
     ret messages
   else if status_code response =? 401 then
     print "ERROR: Invalid bot token (401 Unauthorized)" ;;
     sys_exit 1
   else if status_code response =? 403 then
     print "ERROR: Bot lacks permission to read this channel (403 Forbidden)" ;;
     sys_exit 1
   else if status_code response =? 404 then
     print "ERROR: Channel not found (404 Not Found)" ;;
     sys_exit 1
   else
     print ("ERROR: Discord API returned status "
            ++ str_of_Z (status_code response)) ;;
     print ("Response: " ++ text response) ;;
     sys_exit 1)%prog.

(** The default of the [limit] parameter. *)
Definition fetch_messages_default (token channel_id : string) : M pyval :=
  fetch_messages token channel_id 100.

(* ================================================================== *)
(** ** json.dump(obj, f, indent=2, ensure_ascii=False, sort_keys=False) *)

Definition hex_digit (n : nat) : ascii :=
  ascii_of_nat (if Nat.ltb n 10 then 48 + n else 87 + n).

Definition dquote : ascii := ascii_of_nat 34.

(** The escape of one character of a string: the quote, the backslash
    and the control characters are escaped; every other byte, those of
    non-ASCII characters included, is written as it is. *)
Definition escape_char (c : ascii) : string :=
  let n := nat_of_ascii c in
  if Nat.eqb n 34 then String "\" (String dquote EmptyString)
  else if Nat.eqb n 92 then "\\"
  else if Nat.eqb n 8 then "\b"
  else if Nat.eqb n 12 then "\f"
  else if Nat.eqb n 10 then "\n"
  else if Nat.eqb n 13 then "\r"
  else if Nat.eqb n 9 then "\t"
  else if Nat.ltb n 32 then
    "\u00" ++ String (hex_digit (Nat.div n 16))
                     (String (hex_digit (Nat.modulo n 16)) EmptyString)
  else String c EmptyString.

Fixpoint escape_string (s : string) : string :=
  match s with
  | EmptyString => EmptyString
  | String c s' => escape_char c ++ escape_string s'
  end.

(** A string as JSON text, between quotes. *)
Definition json_string (s : string) : string :=
  String dquote (escape_string s ++ String dquote EmptyString).

Fixpoint spaces (n : nat) : string :=
  match n with
  | O => EmptyString
  | S n' => String " " (spaces n')
  end.

Definition newline : string := String (ascii_of_nat 10) EmptyString.

(** A line break followed by the indentation of a nesting level: two
    spaces per level. *)
Definition newline_indent (level : nat) : string :=
  newline ++ spaces (2 * level).

Fixpoint join (sep : string) (l : list string) : string :=
  match l with
  | [] => EmptyString
  | [x] => x
  | x :: rest => x ++ sep ++ join sep rest
  end.

(** The text of a value at a nesting level.  The items of a dict are
    written in the order the dict holds them. *)
Fixpoint dumps (level : nat) (v : pyval) : string :=
  match v with
  | PNone => "null"
  | PBool true => "true"
  | PBool false => "false"
  | PInt z => str_of_Z z
  | PStr s => json_string s
  | PList [] => "[]"
  | PList l =>
      "[" ++ newline_indent (S level)
      ++ join ("," ++ newline_indent (S level)) (map (dumps (S level)) l)
      ++ newline_indent level ++ "]"
  | PDict [] => "{}"
  | PDict d =>
      "{" ++ newline_indent (S level)
      ++ join ("," ++ newline_indent (S level))
              (map (fun kv => match kv with
                              | (k, x) => json_string k ++ ": " ++ dumps (S level) x
                              end) d)
      ++ newline_indent level ++ "}"
  end.

(* ================================================================== *)
(** ** The file system and write_json *)

Fixpoint path_eqb (p q : path) : bool :=
  match p, q with
  | [], [] => true
  | a :: p', b :: q' => (a =? b)%string && path_eqb p' q'
  | _, _ => false
  end.

(** The root [[]] always is a directory. *)
Definition is_dir (w : world) (p : path) : bool :=
  match p with
  | [] => true
  | _ => existsb (path_eqb p) (dirs w)
  end.

Definition is_file (w : world) (p : path) : bool :=
  existsb (fun f => path_eqb p (fst f)) (files w).

Definition read_file (w : world) (p : path) : option string :=
  match find (fun f => path_eqb p (fst f)) (files w) with
  | Some f => Some (snd f)
  | None => None
  end.

Definition parent (p : path) : path := removelast p.

(** The non-empty prefixes of a path, shortest first. *)
Definition prefixes (p : path) : list path :=
  map (fun n => firstn n p) (seq 1 (List.length p)).

Definition add_dir (p : path) (w : world) : world :=
  mkWorld (environ w) (stdout w) (remote w) (sent w) (p :: dirs w) (files w).

(** [p.mkdir(parents=True, exist_ok=True)]: every missing ancestor and
    then [p] itself is created; a directory that exists is left alone; a
    regular file in the way is an error. *)
Fixpoint mkdir_each (target : path) (ps : list path) : M unit :=
  match ps with
  | [] => ret tt
  | q :: rest =>
      fun w =>
        if is_dir w q then mkdir_each target rest w
        else if is_file w q then
          (Raise (if path_eqb q target then FileExistsError
                  else NotADirectoryError), w)
        else mkdir_each target rest (add_dir q w)
  end.

Definition mkdir_parents (p : path) : M unit := mkdir_each p (prefixes p).

(** [open(p, "w")] followed by the write of [content] and the close:
    the file is created or replaced. *)
Definition write_text (p : path) (content : string) : M unit :=
  fun w =>
    if is_dir w p then (Raise IsADirectoryError, w)
    else if negb (is_dir w (parent p)) then (Raise FileNotFoundError, w)
    else
      (Ok tt,
       mkWorld (environ w) (stdout w) (remote w) (sent w) (dirs w)
               ((p, content)
                  :: filter (fun f => negb (path_eqb p (fst f))) (files w))).

(** [str(path)] *)
Definition str_of_path (p : path) : string := join "/" p.

Definition write_json (attachments : list pyval) (output_path : path) : M unit :=
  (mkdir_parents (parent output_path) ;;
   write_text output_path (dumps 0 (PList attachments)) ;;
   print ("Wrote " ++ str_of_nat (List.length attachments) ++ " entries to "
          ++ str_of_path output_path))%prog.

(* ================================================================== *)
(** ** main *)

Fixpoint str_repeat (c : ascii) (n : nat) : string :=
  match n with
  | O => EmptyString
  | S n' => String c (str_repeat c n')
  end.

Definition banner : string := str_repeat "=" 50.

(** [script_dir] is the directory of the program file. *)
Definition output_path_of (script_dir : path) : path :=
  (script_dir ++ ["docs"; "files.json"])%list.

Definition main (script_dir : path) : M unit :=
  (print banner ;;
   print "Discord File Sync Script" ;;
   print banner ;;
   creds <- get_env_vars ;;
   let output_path := output_path_of script_dir in
   messages <- fetch_messages (fst creds) (snd creds) 100 ;;
   attachments <- extract_attachments messages ;;
   attachments <- lift (sort_attachments attachments) ;;
   write_json attachments output_path ;;
   print banner ;;
   print "Sync complete!" ;;
   print banner)%prog.

(* ================================================================== *)
(** * Specification-level definitions

    The extractor as the specification words it, over messages typed as
    its data model types them. *)

(** The field [k] of an object, or [default] when it is absent. *)
Definition field (v : pyval) (k : string) (default : pyval) : pyval :=
  match v with
  | PDict d =>
      match dict_lookup k d with
      | Some x => x
      | None => default
      end
  | _ => default
  end.

(** Global display name, else username, else the literal Unknown. *)
Definition spec_author (msg : pyval) : pyval :=
  let author := field msg "author" (PDict []) in
  if py_truthy (field author "global_name" PNone)
  then field author "global_name" PNone
  else if py_truthy (field author "username" PNone)
  then field author "username" PNone
  else PStr "Unknown".

Definition spec_record (msg attachment : pyval) : pyval :=
  PDict [("name", field attachment "filename" (PStr "unknown"));
         ("url", field attachment "url" (PStr ""));
         ("uploaded_at", field msg "timestamp" (PStr ""));
         ("author", spec_author msg);
         ("size", field attachment "size" (PInt 0));
         ("content_type", field attachment "content_type" (PStr ""))].

(** One record per attachment, none when the attachments are absent or
    empty. *)
Definition spec_records (msg : pyval) : list pyval :=
  match field msg "attachments" PNone with
  | PList atts => map (spec_record msg) atts
  | _ => []
  end.

Definition is_dict (v : pyval) : bool :=
  match v with
  | PDict _ => true
  | _ => false
  end.

(** A message of the data model: an object whose [attachments], when
    present, is a sequence of objects and whose [author], when present,
    is an object. *)
Definition wf_message (msg : pyval) : bool :=
  match msg with
  | PDict d =>
      match dict_lookup "attachments" d with
      | None => true
      | Some (PList atts) => forallb is_dict atts
      | Some _ => false
      end
      && match dict_lookup "author" d with
         | None => true
         | Some a => is_dict a
         end
  | _ => false
  end.

(** The number of attachments of a message. *)
Definition attachment_count (msg : pyval) : nat :=
  match field msg "attachments" PNone with
  | PList atts => List.length atts
  | _ => O
  end.

Definition total_attachments (msgs : list pyval) : nat :=
  fold_right (fun m n => (attachment_count m + n)%nat) O msgs.

(** The world after some more lines have been printed. *)
Definition printed (w : world) (lines : list string) : world :=
  mkWorld (environ w) (stdout w ++ lines) (remote w) (sent w)
          (dirs w) (files w).

(** [d] without its key [k]. *)
Definition dict_remove (k : string) (d : list (string * pyval))
    : list (string * pyval) :=
  filter (fun kv => negb (fst kv =? k)%string) d.

(** ** The order of the sorter

    Among keys of one kind, [<] is the order of the instants. *)

Definition is_aware (t : datetime) : bool :=
  match tzinfo t with
  | Some _ => true
  | None => false
  end.

Definition instant (t : datetime) : Z :=
  wall_micros t - match tzinfo t with
                  | Some off => off
                  | None => 0
                  end.

Arguments instant : simpl never.
Arguments wall_micros : simpl never.

(** The effective timestamp of a record: what the key function returns
    for it. *)
Definition effective (item : pyval) : datetime :=
  match parse_timestamp item with
  | Ok t => t
  | Raise _ => datetime_min
  end.

(** The records of [l] whose effective instant is [k], in the order of
    [l]. *)
Definition tied (k : Z) (l : list pyval) : list pyval :=
  filter (fun x => instant (effective x) =? k) l.

(** Newest first. *)
Definition newest_first (l : list pyval) : Prop :=
  StronglySorted
    (fun a b => instant (effective b) <= instant (effective a)) l.

(** The records with the keys the sort computed for them. *)
Definition decorate (l : list pyval) : list (datetime * pyval) :=
  map (fun x => (effective x, x)) l.

Definition decorated (p : datetime * pyval) : Prop :=
  fst p = effective (snd p).

Section Insertion.
Context {A : Type}.

(** The insertion and the sort without the exceptions. *)
Fixpoint ins (x : datetime * A) (run : list (datetime * A))
    : list (datetime * A) :=
  match run with
  | [] => [x]
  | y :: rest =>
      if instant (fst x) <? instant (fst y) then x :: y :: rest
      else y :: ins x rest
  end.

Fixpoint srt (todo run : list (datetime * A)) : list (datetime * A) :=
  match todo with
  | [] => run
  | x :: rest => srt rest (ins x run)
  end.

Definition uniform (b : bool) (kvs : list (datetime * A)) : Prop :=
  forall x, In x kvs -> is_aware (fst x) = b.

Definition ascending (kvs : list (datetime * A)) : Prop :=
  StronglySorted (fun a b => instant (fst a) <= instant (fst b)) kvs.

Definition tied_keys (k : Z) (kvs : list (datetime * A)) : list (datetime * A) :=
  filter (fun x => instant (fst x) =? k) kvs.

End Insertion.

(** ** Worlds, typed records and concrete inputs *)

(** The world after a request has gone out. *)
Definition requested (w : world) (r : request) : world :=
  mkWorld (environ w) (stdout w) (remote w) (sent w ++ [r])
          (dirs w) (files w).

(** The request [fetch_messages] builds. *)
Definition messages_request (token channel_id : string) (limit : Z) : request :=
  mkRequest
    ("https://discord.com/api/v10/channels/" ++ channel_id ++ "/messages")
    [("Authorization", "Bot " ++ token); ("Content-Type", "application/json")]
    [("limit", Z.min limit 100)]
    30.

Definition fetching_line (channel_id : string) (limit : Z) : string :=
  "Fetching up to " ++ str_of_Z limit ++ " messages from channel "
  ++ channel_id ++ "...".

(** A record of the data model: its [uploaded_at] is a string. *)
Definition uploaded_at_is_str (item : pyval) : bool :=
  match field item "uploaded_at" (PStr "") with
  | PStr _ => true
  | _ => false
  end.

(** A record whose [uploaded_at] is the string [ts]. *)
Definition record_at (ts : string) : pyval :=
  PDict [("name", PStr "file.bin");
         ("url", PStr "https://cdn.example/file.bin");
         ("uploaded_at", PStr ts);
         ("author", PStr "Unknown");
         ("size", PInt 0);
         ("content_type", PStr "")].

(** A message with one attachment named [name], by [user], at the
    timestamp [ts] when there is one. *)
Definition message_with (ts : option string) (user name : string) : pyval :=
  PDict ((match ts with
          | Some t => [("timestamp", PStr t)]
          | None => []
          end)
         ++ [("author", PDict [("global_name", PNone); ("username", PStr user)]);
             ("attachments",
              PList [PDict [("filename", PStr name);
                            ("url", PStr ("https://cdn.example/" ++ name));
                            ("size", PInt 12);
                            ("content_type", PStr "text/plain")]])])%list.

Definition msg_january : pyval :=
  message_with (Some "2024-01-01T00:00:00.000000+00:00") "ann" "jan.txt".

Definition msg_june : pyval :=
  message_with (Some "2024-06-01T12:00:00Z") "bob" "jun.txt".

Definition msg_undated : pyval := message_with None "cyd" "old.txt".

(** A world with both environment values set, where the platform
    answers every request with [r]. *)
Definition world_answering (r : response) : world :=
  mkWorld [("DISCORD_BOT_TOKEN", "secret"); ("DISCORD_CHANNEL_ID", "42")]
          [] (fun _ => Ok r) [] [] [(["repo"; "docs"; "files.json"], "[]")].

(** ** ISO-8601 spellings of a datetime *)

Definition digit_char (n : Z) : ascii := ascii_of_nat (48 + Z.to_nat n).

Definition two_digits (n : Z) : string :=
  String (digit_char (n / 10)) (String (digit_char (n mod 10)) EmptyString).

Definition four_digits (n : Z) : string :=
  two_digits (n / 100) ++ two_digits (n mod 100).

Definition six_digits (n : Z) : string :=
  two_digits (n / 10000) ++ two_digits (n / 100 mod 100)
  ++ two_digits (n mod 100).

(** [YYYY-MM-DDTHH:MM:SS] *)
Definition iso_seconds (t : datetime) : string :=
  four_digits (year t) ++ "-" ++ two_digits (month t) ++ "-"
  ++ two_digits (day t) ++ "T" ++ two_digits (hour t) ++ ":"
  ++ two_digits (minute t) ++ ":" ++ two_digits (second t).

(** The same with the six digits of the microseconds. *)
Definition iso_micros (t : datetime) : string :=
  iso_seconds t ++ "." ++ six_digits (microsecond t).

(** ** The writer on text that may have no encoding

    The strings of a [pyval] are UTF-8 bytes, so every one of them can
    be written.  A Python string can also hold a lone surrogate
    ([json.loads] makes one of an escape of a single surrogate), and
    such a string has no UTF-8 bytes: the file opened with
    [encoding="utf-8"] refuses it.  The values below make the
    difference, and the writer is modelled on them chunk by chunk, as
    [json.dump] hands the text to [f.write]. *)

Inductive pystr : Type :=
| Utf8 (bytes : string)
| Surrogates.

Inductive tval : Type :=
| TNone
| TBool (b : bool)
| TInt (z : Z)
| TStr (s : pystr)
| TList (l : list tval)
| TDict (d : list (pystr * tval)).

(** What one [f.write] receives: the UTF-8 bytes of the text, or [None]
    for a text the codec refuses. *)
Definition chunk : Type := option string.

Definition encoder (s : pystr) : chunk :=
  match s with
  | Utf8 b => Some (json_string b)
  | Surrogates => None
  end.

Definition prepend (buf : string) (c : chunk) : chunk :=
  match c with
  | Some b => Some (buf ++ b)
  | None => None
  end.

(** The text of a value that is no array and no object. *)
Definition scalar_chunk (v : tval) : option chunk :=
  match v with
  | TNone => Some (Some "null")
  | TBool true => Some (Some "true")
  | TBool false => Some (Some "false")
  | TInt z => Some (Some (str_of_Z z))
  | TStr s => Some (encoder s)
  | TList _ => None
  | TDict _ => None
  end.

Section Iterencode.
Variable nested : tval -> list chunk.
Variable separator : string.

(** The items of an array: a scalar is yielded together with what
    precedes it, an array or object after it. *)
Fixpoint list_chunks (buf : string) (l : list tval) : list chunk :=
  match l with
  | [] => []
  | x :: rest =>
      (match scalar_chunk x with
       | Some c => [prepend buf c]
       | None => Some buf :: nested x
       end ++ list_chunks separator rest)%list
  end.

(** The items of an object: the separator, the key, the colon and the
    value are yielded one by one. *)
Fixpoint dict_chunks (first : bool) (d : list (pystr * tval)) : list chunk :=
  match d with
  | [] => []
  | (k, x) :: rest =>
      ((if first then [] else [Some separator])
       ++ encoder k :: Some ": "
          :: match scalar_chunk x with
             | Some c => [c]
             | None => nested x
             end
       ++ dict_chunks false rest)%list
  end.
End Iterencode.

(** [JSONEncoder(indent=2, ensure_ascii=False).iterencode(v)] at a
    nesting level. *)
Fixpoint iterencode (level : nat) (v : tval) : list chunk :=
  match v with
  | TList [] => [Some "[]"]
  | TList l =>
      (list_chunks (iterencode (S level)) ("," ++ newline_indent (S level))
                   ("[" ++ newline_indent (S level)) l
       ++ [Some (newline_indent level); Some "]"])%list
  | TDict [] => [Some "{}"]
  | TDict d =>
      (Some "{" :: Some (newline_indent (S level))
       :: dict_chunks (iterencode (S level)) ("," ++ newline_indent (S level))
                      true d
       ++ [Some (newline_indent level); Some "}"])%list
  | _ => match scalar_chunk v with
         | Some c => [c]
         | None => []
         end
  end.

(** The writes of the chunks in turn: the bytes reach the file until a
    chunk is refused. *)
Fixpoint write_each (cs : list chunk) (written : string) : result unit * string :=
  match cs with
  | [] => (Ok tt, written)
  | Some b :: rest => write_each rest (written ++ b)
  | None :: _ => (Raise UnicodeEncodeError, written)
  end.

(** [with open(p, "w", encoding="utf-8") as f:] and one [f.write] per
    chunk: the file is created or emptied, and keeps what was written
    when a write raises. *)
Definition write_chunks (p : path) (cs : list chunk) : M unit :=
  fun w =>
    if is_dir w p then (Raise IsADirectoryError, w)
    else if negb (is_dir w (parent p)) then (Raise FileNotFoundError, w)
    else
      (fst (write_each cs ""),
       mkWorld (environ w) (stdout w) (remote w) (sent w) (dirs w)
               ((p, snd (write_each cs ""))
                  :: filter (fun f => negb (path_eqb p (fst f))) (files w))).

(** [write_json] on such values. *)
Definition write_json_text (attachments : list tval) (output_path : path)
    : M unit :=
  (mkdir_parents (parent output_path) ;;
   write_chunks output_path (iterencode 0 (TList attachments)) ;;
   print ("Wrote " ++ str_of_nat (List.length attachments) ++ " entries to "
          ++ str_of_path output_path))%prog.

(** A [pyval] as such a value: all its strings have bytes. *)
Fixpoint text_of (v : pyval) : tval :=
  match v with
  | PNone => TNone
  | PBool b => TBool b
  | PInt z => TInt z
  | PStr s => TStr (Utf8 s)
  | PList l => TList (map text_of l)
  | PDict d => TDict (map (fun kv => match kv with
                                     | (k, x) => (Utf8 k, text_of x)
                                     end) d)
  end.

(** The text of a list of chunks that are all accepted. *)
Fixpoint chunks_text (cs : list chunk) : option string :=
  match cs with
  | [] => Some EmptyString
  | Some b :: rest =>
      match chunks_text rest with
      | Some t => Some (b ++ t)
      | None => None
      end
  | None :: _ => None
  end.

(** A string without quote, backslash or control character. *)
Definition plain_char (c : ascii) : bool :=
  Nat.leb 32 (nat_of_ascii c)
  && negb (Nat.eqb (nat_of_ascii c) 34)
  && negb (Nat.eqb (nat_of_ascii c) 92).

Definition plain (s : string) : bool :=
  forallb plain_char (list_ascii_of_string s).

(** The value of a hexadecimal digit. *)
Definition hex_val (c : ascii) : option nat :=
  let n := nat_of_ascii c in
  if Nat.leb 48 n && Nat.leb n 57 then Some (n - 48)%nat
  else if Nat.leb 97 n && Nat.leb n 102 then Some (n - 87)%nat
  else if Nat.leb 65 n && Nat.leb n 70 then Some (n - 55)%nat
  else None.

(** The reading of the inside of a JSON string, as the JSON grammar
    gives it: a backslash starts an escape; a quote or a control
    character cannot stand unescaped; any other byte stands for itself.
    Of the escapes with four hexadecimal digits, those of the ASCII
    characters are read. *)
Fixpoint unescape (s : string) : option string :=
  match s with
  | EmptyString => Some EmptyString
  | String c rest =>
      if Nat.eqb (nat_of_ascii c) 92 then
        match rest with
        | String e rest' =>
            let put (x : nat) (r : string) :=
              match unescape r with
              | Some t => Some (String (ascii_of_nat x) t)
              | None => None
              end in
            if Nat.eqb (nat_of_ascii e) 34 then put 34%nat rest'
            else if Nat.eqb (nat_of_ascii e) 92 then put 92%nat rest'
            else if Nat.eqb (nat_of_ascii e) 47 then put 47%nat rest'
            else if Nat.eqb (nat_of_ascii e) 98 then put 8%nat rest'
            else if Nat.eqb (nat_of_ascii e) 102 then put 12%nat rest'
            else if Nat.eqb (nat_of_ascii e) 110 then put 10%nat rest'
            else if Nat.eqb (nat_of_ascii e) 114 then put 13%nat rest'
            else if Nat.eqb (nat_of_ascii e) 116 then put 9%nat rest'
            else if Nat.eqb (nat_of_ascii e) 117 then
              match rest' with
              | String h1 (String h2 (String h3 (String h4 rest''))) =>
                  match hex_val h1, hex_val h2, hex_val h3, hex_val h4 with
                  | Some a, Some b, Some c', Some d =>
                      let n := (((a * 16 + b) * 16 + c') * 16 + d)%nat in
                      if Nat.ltb n 128 then put n rest'' else None
                  | _, _, _, _ => None
                  end
              | _ => None
              end
            else None
        | EmptyString => None
        end
      else if Nat.eqb (nat_of_ascii c) 34 || Nat.ltb (nat_of_ascii c) 32
      then None
      else match unescape rest with
           | Some t => Some (String c t)
           | None => None
           end
  end.

(** A text between two quotes. *)
Definition quoted (s : string) : string :=
  String dquote (s ++ String dquote EmptyString).

(* ================================================================== *)
(** * Lemmas on the extractor *)

Lemma py_get_dict (d : list (string * pyval)) (k : string) (default : pyval) :
  py_get (PDict d) k default = Ok (field (PDict d) k default).
Proof.
  unfold py_get, field. destruct (dict_lookup k d); reflexivity.
Qed.

Lemma is_dict_inv (v : pyval) : is_dict v = true -> exists d, v = PDict d.
Proof.
  destruct v; simpl; try discriminate. intros _. eexists. reflexivity.
Qed.

Lemma extract_inner_dicts (items : list pyval) (timestamp author_name : pyval) :
  forallb is_dict items = true ->
  forall attachments,
    extract_inner items timestamp author_name attachments
    = Ok (attachments
          ++ map (fun a =>
                    PDict [("name", field a "filename" (PStr "unknown"));
                           ("url", field a "url" (PStr ""));
                           ("uploaded_at", timestamp);
                           ("author", author_name);
                           ("size", field a "size" (PInt 0));
                           ("content_type", field a "content_type" (PStr ""))])
                 items)%list.
Proof.
  induction items as [|a items IH]; intros Hd acc.
  - simpl. now rewrite app_nil_r.
  - simpl in Hd. apply andb_true_iff in Hd as [Ha Hrest].
    apply is_dict_inv in Ha as [d ->].
    cbn [extract_inner]. rewrite !py_get_dict. cbn [rbind].
    rewrite (IH Hrest). rewrite <- app_assoc. reflexivity.
Qed.

Lemma author_name_of_dict (d : list (string * pyval)) :
  author_name_of (PDict d)
  = Ok (if py_truthy (field (PDict d) "global_name" PNone)
        then field (PDict d) "global_name" PNone
        else if py_truthy (field (PDict d) "username" PNone)
        then field (PDict d) "username" PNone
        else PStr "Unknown").
Proof.
  unfold author_name_of. rewrite !py_get_dict. cbn [rbind]. unfold py_or.
  destruct (py_truthy (field (PDict d) "global_name" PNone)); [reflexivity|].
  cbn [rbind].
  destruct (py_truthy (field (PDict d) "username" PNone)); reflexivity.
Qed.

(** One well-formed message appends its records to the accumulator. *)
Lemma extract_loop_step (msg : pyval) (rest attachments : list pyval) :
  wf_message msg = true ->
  extract_loop (msg :: rest) attachments
  = extract_loop rest (attachments ++ spec_records msg)%list.
Proof.
  intros Hwf. destruct msg as [| | | | |d]; try discriminate.
  unfold wf_message in Hwf. apply andb_true_iff in Hwf as [Hatt Hauth].
  cbn [extract_loop]. rewrite py_get_dict. cbn [rbind].
  unfold spec_records.
  assert (Hf : field (PDict d) "attachments" PNone
               = match dict_lookup "attachments" d with
                 | Some x => x
                 | None => PNone
                 end) by reflexivity.
  rewrite Hf. clear Hf. unfold py_getitem.
  destruct (dict_lookup "attachments" d) as [a|] eqn:Ea.
  2:{ cbn [py_truthy negb]. now rewrite app_nil_r. }
  destruct a as [| | | |atts|]; try discriminate.
  destruct atts as [|a0 atts].
  { cbn [py_truthy negb map]. now rewrite app_nil_r. }
  cbn [py_truthy negb]. rewrite py_get_dict. cbn [rbind].
  unfold spec_record, spec_author.
  assert (Ha : exists da, field (PDict d) "author" (PDict []) = PDict da).
  { unfold field. destruct (dict_lookup "author" d) as [a|].
    - now apply is_dict_inv.
    - eexists; reflexivity. }
  destruct Ha as [da Eda]. rewrite Eda.
  rewrite author_name_of_dict. cbn [rbind].
  rewrite py_get_dict. cbn [rbind py_iter].
  rewrite (extract_inner_dicts _ _ _ Hatt). cbn [rbind].
  reflexivity.
Qed.

Lemma extract_loop_wf (msgs : list pyval) :
  forallb wf_message msgs = true ->
  forall attachments,
    extract_loop msgs attachments
    = Ok (attachments ++ flat_map spec_records msgs)%list.
Proof.
  induction msgs as [|m msgs IH]; intros Hwf acc.
  - simpl. now rewrite app_nil_r.
  - simpl in Hwf. apply andb_true_iff in Hwf as [Hm Hrest].
    rewrite (extract_loop_step _ _ _ Hm), (IH Hrest).
    simpl. now rewrite app_assoc.
Qed.

Lemma spec_records_length (msg : pyval) :
  List.length (spec_records msg) = attachment_count msg.
Proof.
  unfold spec_records, attachment_count.
  destruct (field msg "attachments" PNone); try reflexivity.
  apply length_map.
Qed.

Lemma flat_map_spec_records_length (msgs : list pyval) :
  List.length (flat_map spec_records msgs) = total_attachments msgs.
Proof.
  induction msgs as [|m msgs IH]; [reflexivity|].
  simpl. now rewrite length_app, spec_records_length, IH.
Qed.

Lemma extract_attachments_wf (msgs : list pyval) (w : world) :
  forallb wf_message msgs = true ->
  extract_attachments (PList msgs) w
  = (Ok (flat_map spec_records msgs),
     printed w ["Extracted " ++ str_of_nat (total_attachments msgs)
                ++ " attachments"]).
Proof.
  intros Hwf. unfold extract_attachments, bind, lift. cbn [py_iter].
  rewrite (extract_loop_wf _ Hwf). cbn [app].
  unfold print, ret, printed. now rewrite flat_map_spec_records_length.
Qed.

(* ================================================================== *)
(** * Lemmas on the sorter *)

Lemma datetime_lt_same_kind (a b : datetime) :
  is_aware a = is_aware b ->
  datetime_lt a b = Ok (instant a <? instant b).
Proof.
  unfold is_aware, datetime_lt, instant.
  destruct (tzinfo a), (tzinfo b); intros H; try discriminate; try reflexivity.
  now rewrite !Z.sub_0_r.
Qed.

Lemma datetime_lt_mixed (a b : datetime) :
  is_aware a <> is_aware b -> datetime_lt a b = Raise TypeError.
Proof.
  unfold is_aware, datetime_lt.
  destruct (tzinfo a), (tzinfo b); intros H; try reflexivity; now elim H.
Qed.

Opaque instant.

Section InsertionFacts.
Context {A : Type}.
Implicit Types (x y : datetime * A) (run todo kvs : list (datetime * A)).

Lemma ins_perm x run : Permutation (ins x run) (x :: run).
Proof.
  induction run as [|y rest IH]; simpl.
  - reflexivity.
  - destruct (instant (fst x) <? instant (fst y)); [reflexivity|].
    rewrite IH. apply perm_swap.
Qed.

Lemma uniform_cons b x run :
  uniform b (x :: run) <-> is_aware (fst x) = b /\ uniform b run.
Proof.
  unfold uniform; split.
  - intros H; split; [apply H; now left | intros z Hz; apply H; now right].
  - intros [Hx Hr] z [<-|Hz]; auto.
Qed.

Lemma uniform_ins b x run :
  is_aware (fst x) = b -> uniform b run -> uniform b (ins x run).
Proof.
  intros Hx Hr z Hz.
  apply (Permutation_in _ (ins_perm x run)) in Hz.
  destruct Hz as [<-|Hz]; auto.
Qed.

Lemma insert_uniform b x run :
  is_aware (fst x) = b -> uniform b run ->
  insert datetime_lt x run = Ok (ins x run).
Proof.
  intros Hx. induction run as [|y rest IH]; intros Hr; [reflexivity|].
  apply uniform_cons in Hr as [Hy Hrest].
  cbn [insert ins]. rewrite datetime_lt_same_kind by congruence.
  cbn [rbind]. destruct (instant (fst x) <? instant (fst y)); [reflexivity|].
  now rewrite (IH Hrest).
Qed.

Lemma sort_run_uniform b todo :
  forall run, uniform b todo -> uniform b run ->
  sort_run datetime_lt todo run = Ok (srt todo run).
Proof.
  induction todo as [|x rest IH]; intros run Ht Hr; [reflexivity|].
  apply uniform_cons in Ht as [Hx Hrest].
  cbn [sort_run srt]. rewrite (insert_uniform b) by assumption.
  cbn [rbind]. apply IH; [assumption|]. now apply uniform_ins.
Qed.

Lemma ins_cons x y run : exists z rest, ins x (y :: run) = z :: rest.
Proof.
  simpl. destruct (instant (fst x) <? instant (fst y)); eauto.
Qed.

(** A key of the other kind ends the sort: it is compared with the head
    of the run. *)
Lemma sort_run_mixed b todo :
  forall y run, uniform b (y :: run) -> ~ uniform b todo ->
  sort_run datetime_lt todo (y :: run) = Raise TypeError.
Proof.
  induction todo as [|x rest IH]; intros y run Hr Ht.
  - elim Ht. intros z [].
  - cbn [sort_run].
    destruct (Bool.bool_dec (is_aware (fst x)) b) as [Hx|Hx].
    + rewrite (insert_uniform b) by assumption. cbn [rbind].
      destruct (ins_cons x y run) as (z & rest' & E).
      pose proof (uniform_ins b x (y :: run) Hx Hr) as Hu.
      rewrite E in *. apply IH; [assumption|].
      intros Hrest. apply Ht. now apply uniform_cons.
    + cbn [insert]. rewrite datetime_lt_mixed; [reflexivity|].
      apply uniform_cons in Hr as [Hy _]. congruence.
Qed.

Lemma ins_ascending x run : ascending run -> ascending (ins x run).
Proof.
  unfold ascending. induction run as [|y rest IH]; intros Hs; simpl.
  - repeat constructor.
  - apply StronglySorted_inv in Hs as [Hrest Hy].
    destruct (instant (fst x) <? instant (fst y)) eqn:E.
    + apply Z.ltb_lt in E. constructor.
      * now constructor.
      * constructor; [lia|].
        eapply Forall_impl; [|exact Hy]. simpl. intros; lia.
    + apply Z.ltb_ge in E. constructor; [now apply IH|].
      apply Forall_forall. intros z Hz.
      apply (Permutation_in _ (ins_perm x rest)) in Hz.
      destruct Hz as [<-|Hz]; [assumption|].
      rewrite Forall_forall in Hy. now apply Hy.
Qed.

Lemma srt_ascending todo :
  forall run, ascending run -> ascending (srt todo run).
Proof.
  induction todo as [|x rest IH]; intros run Hs; simpl; [assumption|].
  apply IH. now apply ins_ascending.
Qed.

Lemma srt_perm todo : forall run, Permutation (srt todo run) (todo ++ run).
Proof.
  induction todo as [|x rest IH]; intros run; simpl; [reflexivity|].
  rewrite IH, ins_perm. symmetry. apply Permutation_middle.
Qed.

Lemma tied_keys_app k kvs1 kvs2 :
  tied_keys k (kvs1 ++ kvs2) = (tied_keys k kvs1 ++ tied_keys k kvs2)%list.
Proof. apply filter_app. Qed.

Lemma tied_keys_above k run :
  Forall (fun y => k < instant (fst y)) run -> tied_keys k run = [].
Proof.
  induction 1 as [|y rest Hy _ IH]; [reflexivity|].
  unfold tied_keys in *. simpl. rewrite IH.
  destruct (Z.eqb_spec (instant (fst y)) k); [lia|reflexivity].
Qed.

(** The insertion puts an element after the elements of the run it is
    tied with. *)
Lemma ins_tied_keys k x run :
  ascending run ->
  tied_keys k (ins x run) = (tied_keys k run ++ tied_keys k [x])%list.
Proof.
  unfold ascending. induction run as [|y rest IH]; intros Hs.
  - reflexivity.
  - apply StronglySorted_inv in Hs as [Hrest Hy]. cbn [ins].
    destruct (instant (fst x) <? instant (fst y)) eqn:E.
    + apply Z.ltb_lt in E.
      destruct (Z.eqb_spec (instant (fst x)) k) as [Ek|Ek].
      * assert (H0 : tied_keys k (y :: rest) = []).
        { apply tied_keys_above. constructor; [lia|].
          eapply Forall_impl; [|exact Hy]. simpl. intros; lia. }
        change (x :: y :: rest) with ([x] ++ (y :: rest))%list.
        rewrite tied_keys_app, H0. now rewrite app_nil_r.
      * assert (H0 : tied_keys k [x] = []).
        { unfold tied_keys. simpl.
          destruct (Z.eqb_spec (instant (fst x)) k); [contradiction|reflexivity]. }
        change (x :: y :: rest) with ([x] ++ (y :: rest))%list.
        rewrite tied_keys_app, H0. now rewrite app_nil_r.
    + change (y :: ins x rest) with ([y] ++ ins x rest)%list.
      change (y :: rest) with ([y] ++ rest)%list.
      rewrite !tied_keys_app, (IH Hrest). now rewrite app_assoc.
Qed.

Lemma srt_tied_keys k todo :
  forall run, ascending run ->
  tied_keys k (srt todo run) = (tied_keys k run ++ tied_keys k todo)%list.
Proof.
  induction todo as [|x rest IH]; intros run Hs; cbn [srt].
  - unfold tied_keys at 3. simpl. now rewrite app_nil_r.
  - rewrite IH by now apply ins_ascending.
    rewrite ins_tied_keys by assumption.
    change (x :: rest) with ([x] ++ rest)%list.
    rewrite tied_keys_app. now rewrite app_assoc.
Qed.

End InsertionFacts.

Transparent instant.

Lemma keyed_decorate (l : list pyval) :
  (forall x, In x l -> exists t, parse_timestamp x = Ok t) ->
  keyed parse_timestamp l = Ok (decorate l).
Proof.
  induction l as [|x l IH]; intros H; [reflexivity|].
  cbn [keyed decorate map]. destruct (H x (or_introl eq_refl)) as [t Et].
  unfold effective. rewrite Et. cbn [rbind].
  rewrite IH by (intros z Hz; apply H; now right). reflexivity.
Qed.

Lemma decorate_snd (l : list pyval) : map snd (decorate l) = l.
Proof.
  unfold decorate. rewrite map_map. simpl. apply map_id.
Qed.

Lemma decorate_decorated (l : list pyval) : Forall decorated (decorate l).
Proof.
  unfold decorate. apply Forall_forall. intros p Hp.
  apply in_map_iff in Hp as (x & <- & _). reflexivity.
Qed.

Lemma StronglySorted_snoc {A : Type} (R : A -> A -> Prop) (l : list A) (a : A) :
  StronglySorted R l -> Forall (fun y => R y a) l ->
  StronglySorted R (l ++ [a]).
Proof.
  induction 1 as [|y l Hs IH Hy]; intros Ha; simpl.
  - repeat constructor.
  - apply Forall_cons_iff in Ha as [Hya Hla]. constructor; [now apply IH|].
    apply Forall_app; split; [assumption|]. now repeat constructor.
Qed.

(** Reversing an ascending run of decorated pairs gives the records
    newest first. *)
Lemma newest_first_rev (s : list (datetime * pyval)) :
  ascending s -> Forall decorated s -> newest_first (map snd (rev s)).
Proof.
  unfold ascending, newest_first.
  induction s as [|p s IH]; intros Hs Hd; simpl.
  - constructor.
  - apply StronglySorted_inv in Hs as [Hrest Hp].
    apply Forall_cons_iff in Hd as [Hdp Hds].
    rewrite map_app. apply StronglySorted_snoc; [now apply IH|].
    apply Forall_forall. intros y Hy.
    apply in_map_iff in Hy as (q & <- & Hq). apply in_rev in Hq.
    rewrite Forall_forall in Hp, Hds.
    specialize (Hp q Hq). specialize (Hds q Hq).
    unfold decorated in *. simpl. rewrite <- Hdp, <- Hds. exact Hp.
Qed.

Lemma tied_decorated (k : Z) (s : list (datetime * pyval)) :
  Forall decorated s -> tied k (map snd s) = map snd (tied_keys k s).
Proof.
  unfold tied, tied_keys.
  induction 1 as [|p s Hp _ IH]; [reflexivity|].
  cbn [map filter]. rewrite IH. unfold decorated in Hp. rewrite <- Hp.
  destruct (instant (fst p) =? k); reflexivity.
Qed.

(** X1: the sorter on records whose keys are all of one kind (all
    naive or all aware) returns, and returns a permutation of the
    records, newest first, each tie in its original order. *)
Lemma sort_attachments_same_kind (b : bool) (l : list pyval) :
  (forall x, In x l -> exists t, parse_timestamp x = Ok t /\ is_aware t = b) ->
  exists out,
    sort_attachments l = Ok out
    /\ Permutation l out
    /\ newest_first out
    /\ forall k, tied k out = tied k l.
Proof.
  intros H.
  assert (Hk : keyed parse_timestamp l = Ok (decorate l)).
  { apply keyed_decorate. intros x Hx. destruct (H x Hx) as (t & Et & _). eauto. }
  assert (Hu : uniform b (rev (decorate l))).
  { intros p Hp. apply in_rev in Hp. unfold decorate in Hp.
    apply in_map_iff in Hp as (x & <- & Hx).
    destruct (H x Hx) as (t & Et & Hb). unfold effective. simpl. now rewrite Et. }
  set (s := srt (rev (decorate l)) []).
  assert (Hs : sort_run datetime_lt (rev (decorate l)) [] = Ok s).
  { apply (sort_run_uniform b); [assumption|]. intros z []. }
  assert (Hperm : Permutation s (decorate l)).
  { unfold s. rewrite srt_perm, app_nil_r. symmetry. apply Permutation_rev. }
  assert (Hd : Forall decorated s).
  { eapply Permutation_Forall; [symmetry; exact Hperm|]. apply decorate_decorated. }
  assert (Ha : ascending s) by (apply srt_ascending; constructor).
  exists (map snd (rev s)). repeat split.
  - unfold sort_attachments, sorted. rewrite Hk. cbn [rbind]. rewrite Hs. reflexivity.
  - rewrite <- (decorate_snd l) at 1. apply Permutation_map.
    rewrite <- Permutation_rev. now symmetry.
  - now apply newest_first_rev.
  - intros k. rewrite tied_decorated by now apply Forall_rev.
    unfold tied_keys at 1. rewrite filter_rev. fold (tied_keys k s).
    unfold s. rewrite srt_tied_keys by constructor.
    unfold tied_keys at 1. simpl. unfold tied_keys. rewrite filter_rev, rev_involutive.
    fold (tied_keys k (decorate l)).
    rewrite <- tied_decorated by apply decorate_decorated.
    now rewrite decorate_snd.
Qed.

(** X2: the sorter on records with keys of both kinds raises
    [TypeError], wherever the two records stand in the list: a naive key
    is compared with an aware one, and nothing catches the exception. *)
Lemma sort_attachments_mixed (l : list pyval) (x y : pyval) :
  (forall z, In z l -> exists t, parse_timestamp z = Ok t) ->
  In x l -> In y l ->
  is_aware (effective x) <> is_aware (effective y) ->
  sort_attachments l = Raise TypeError.
Proof.
  intros H Hx Hy Hne.
  unfold sort_attachments, sorted. rewrite (keyed_decorate l H). cbn [rbind].
  destruct (rev (decorate l)) as [|z rest] eqn:E.
  - apply (f_equal (@rev _)) in E. rewrite rev_involutive in E.
    destruct l; [destruct Hx | discriminate].
  - cbn [sort_run insert rbind].
    rewrite (sort_run_mixed (is_aware (fst z))); [reflexivity| |].
    + intros p [<-|[]]. reflexivity.
    + intros Hu.
      assert (Hall : forall v, In v l -> is_aware (effective v) = is_aware (fst z)).
      { intros v Hv.
        assert (Hin : In (effective v, v) (z :: rest)).
        { rewrite <- E. apply -> in_rev. unfold decorate.
          apply in_map_iff. eauto. }
        destruct Hin as [Ez|Hin]; [now rewrite Ez|]. apply (Hu _ Hin). }
      apply Hne. now rewrite (Hall x Hx), (Hall y Hy).
Qed.

(* ================================================================== *)
(** * The extractor: claims C3 and C10 *)

Lemma extract_loop_skips (d : list (string * pyval)) (rest attachments : list pyval) :
  dict_lookup "attachments" d = None
  \/ dict_lookup "attachments" d = Some (PList []) ->
  extract_loop (PDict d :: rest) attachments = extract_loop rest attachments.
Proof.
  intros H. cbn [extract_loop]. unfold py_get.
  destruct H as [-> | ->]; reflexivity.
Qed.

(** C3: on messages of the data model the extractor returns, in message
    order and then attachment order, one record per attachment with the
    six fields [name], [url], [uploaded_at], [author], [size] and
    [content_type] and the stated defaults, nothing for a message whose
    attachments are absent or empty, and it drops no attachment: the
    output is the concatenation of [spec_records] over the messages. *)
Theorem extract_attachments_records (msgs : list pyval) (w : world) :
  forallb wf_message msgs = true ->
  extract_attachments (PList msgs) w
  = (Ok (flat_map spec_records msgs),
     printed w ["Extracted " ++ str_of_nat (total_attachments msgs)
                ++ " attachments"])
  /\ (forall d rest acc,
        dict_lookup "attachments" d = None
        \/ dict_lookup "attachments" d = Some (PList []) ->
        extract_loop (PDict d :: rest) acc = extract_loop rest acc)
  /\ (forall msg atts,
        field msg "attachments" PNone = PList atts ->
        spec_records msg = map (spec_record msg) atts
        /\ List.length (spec_records msg) = List.length atts).
Proof.
  intros Hwf. split; [now apply extract_attachments_wf|]. split.
  - intros d rest acc H. now apply extract_loop_skips.
  - intros msg atts H. unfold spec_records. rewrite H.
    split; [reflexivity | apply length_map].
Qed.

Lemma extract_attachments_records_witness :
  forallb wf_message [msg_january; msg_undated] = true
  /\ fst (extract_attachments (PList [msg_january; msg_undated])
            (world_answering (mkResponse 200 "" (Ok (PList [])))))
     = Ok (flat_map spec_records [msg_january; msg_undated]).
Proof.
  split; [reflexivity|].
  rewrite (proj1 (extract_attachments_records [msg_january; msg_undated] _ eq_refl)).
  reflexivity.
Defined.

Lemma dict_lookup_remove_same (k : string) (d : list (string * pyval)) :
  dict_lookup k (dict_remove k d) = None.
Proof.
  induction d as [|[k' v] d IH]; [reflexivity|].
  simpl. destruct (String.eqb_spec k' k) as [E|E]; simpl; [assumption|].
  destruct (String.eqb_spec k' k); [contradiction|assumption].
Qed.

Lemma dict_lookup_remove_other (k k' : string) (d : list (string * pyval)) :
  k <> k' -> dict_lookup k' (dict_remove k d) = dict_lookup k' d.
Proof.
  intros Hne. induction d as [|[k0 v] d IH]; [reflexivity|].
  simpl. destruct (String.eqb_spec k0 k) as [E|E]; simpl.
  - subst k0. destruct (String.eqb_spec k k'); [contradiction|assumption].
  - now rewrite IH.
Qed.

(** C10: an author whose [global_name] is the empty string resolves as
    an author without [global_name] does: to the username when that is a
    non-empty string, and to the literal Unknown when the username is
    absent or empty. *)
Theorem author_empty_global_name (d : list (string * pyval)) :
  dict_lookup "global_name" d = Some (PStr "") ->
  author_name_of (PDict d) = author_name_of (PDict (dict_remove "global_name" d))
  /\ (forall u, dict_lookup "username" d = Some (PStr u) -> u <> "" ->
        author_name_of (PDict d) = Ok (PStr u))
  /\ (dict_lookup "username" d = None
      \/ dict_lookup "username" d = Some (PStr "") ->
      author_name_of (PDict d) = Ok (PStr "Unknown")).
Proof.
  intros Hg. rewrite !author_name_of_dict. unfold field.
  rewrite Hg, dict_lookup_remove_same.
  rewrite dict_lookup_remove_other by discriminate.
  cbn [py_truthy String.eqb negb]. split; [reflexivity|]. split.
  - intros u Hu Hne. rewrite Hu. cbn [py_truthy].
    destruct (String.eqb_spec u ""); [contradiction|reflexivity].
  - intros [-> | ->]; reflexivity.
Qed.

Lemma author_empty_global_name_witness :
  author_name_of (PDict [("global_name", PStr ""); ("username", PStr "ann")])
  = Ok (PStr "ann")
  /\ author_name_of (PDict [("global_name", PStr ""); ("username", PStr "")])
     = Ok (PStr "Unknown").
Proof.
  split.
  - apply (proj1 (proj2 (author_empty_global_name
             [("global_name", PStr ""); ("username", PStr "ann")] eq_refl))
             "ann" eq_refl).
    discriminate.
  - apply (proj2 (proj2 (author_empty_global_name
             [("global_name", PStr ""); ("username", PStr "")] eq_refl))).
    now right.
Defined.

(* ================================================================== *)
(** * The sorter on a record without a usable timestamp: claims C1, C4 *)

(** C1: the sorter does not place a record with an empty timestamp
    after the dated ones.  The records of a message dated
    2024-06-01T12:00:00Z and of a message without a timestamp are
    extracted, the second gets the naive [datetime.min] as its key, the
    first an aware key, and the comparison of the two raises
    [TypeError] out of the sorter. *)
Theorem sort_attachments_undated_raises :
  extract_loop [msg_june; msg_undated] []
  = Ok (flat_map spec_records [msg_june; msg_undated])
  /\ map parse_timestamp (flat_map spec_records [msg_june; msg_undated])
     = [Ok (mkDatetime 2024 6 1 12 0 0 0 (Some 0)); Ok datetime_min]
  /\ sort_attachments (flat_map spec_records [msg_june; msg_undated])
     = Raise TypeError.
Proof.
  split; [|split]; vm_compute; reflexivity.
Qed.

(** C4: for the two messages above, with two attachments in total, the
    run extracts two records and then ends in the sorter with
    [TypeError]: no array is written, and the output file keeps the
    contents of the previous run. *)
Theorem main_undated_writes_nothing :
  let w := world_answering
             (mkResponse 200 "" (Ok (PList [msg_june; msg_undated]))) in
  total_attachments [msg_june; msg_undated] = 2%nat
  /\ fst (main ["repo"] w) = Raise TypeError
  /\ exit_status (fst (main ["repo"] w)) = 1
  /\ files (snd (main ["repo"] w)) = files w
  /\ In "Extracted 2 attachments" (stdout (snd (main ["repo"] w))).
Proof.
  cbv zeta. repeat split; try (vm_compute; reflexivity).
  vm_compute. do 5 right. now left.
Qed.

(* ================================================================== *)
(** * The credential loader: claim C5 *)

Lemma get_env_vars_token_missing (w : world) :
  env_missing (assoc_get "DISCORD_BOT_TOKEN" (environ w)) = true ->
  get_env_vars w
  = (Raise (SystemExit 1),
     printed w ["ERROR: DISCORD_BOT_TOKEN environment variable not set"]).
Proof.
  intros H. unfold get_env_vars, bind, environ_get. rewrite H. reflexivity.
Qed.

Lemma get_env_vars_channel_missing (w : world) :
  env_missing (assoc_get "DISCORD_BOT_TOKEN" (environ w)) = false ->
  env_missing (assoc_get "DISCORD_CHANNEL_ID" (environ w)) = true ->
  get_env_vars w
  = (Raise (SystemExit 1),
     printed w ["ERROR: DISCORD_CHANNEL_ID environment variable not set"]).
Proof.
  intros Ht Hc. unfold get_env_vars, bind, environ_get.
  rewrite Ht. cbn. rewrite Hc. reflexivity.
Qed.

Lemma get_env_vars_present (w : world) :
  env_missing (assoc_get "DISCORD_BOT_TOKEN" (environ w)) = false ->
  env_missing (assoc_get "DISCORD_CHANNEL_ID" (environ w)) = false ->
  get_env_vars w
  = (Ok (env_value (assoc_get "DISCORD_BOT_TOKEN" (environ w)),
         env_value (assoc_get "DISCORD_CHANNEL_ID" (environ w))), w).
Proof.
  intros Ht Hc. unfold get_env_vars, bind, environ_get.
  rewrite Ht. cbn. rewrite Hc. reflexivity.
Qed.

(** C5: when the token or the channel identifier is missing or empty,
    the run prints the error line that names the missing variable (the
    token first), ends with exit status 1, has sent no request and has
    left the directories and files as they were. *)
Theorem main_missing_environment (script_dir : path) (w : world) :
  env_missing (assoc_get "DISCORD_BOT_TOKEN" (environ w)) = true
  \/ env_missing (assoc_get "DISCORD_CHANNEL_ID" (environ w)) = true ->
  let line :=
    if env_missing (assoc_get "DISCORD_BOT_TOKEN" (environ w))
    then "ERROR: DISCORD_BOT_TOKEN environment variable not set"
    else "ERROR: DISCORD_CHANNEL_ID environment variable not set" in
  main script_dir w
  = (Raise (SystemExit 1),
     printed w [banner; "Discord File Sync Script"; banner; line])
  /\ exit_status (fst (main script_dir w)) = 1
  /\ sent (snd (main script_dir w)) = sent w
  /\ dirs (snd (main script_dir w)) = dirs w
  /\ files (snd (main script_dir w)) = files w.
Proof.
  intros H line.
  assert (E : main script_dir w
              = (Raise (SystemExit 1),
                 printed w [banner; "Discord File Sync Script"; banner; line])).
  { unfold main, bind at 1 2 3 4. cbn [print].
    set (w3 := mkWorld _ _ _ _ _ _).
    assert (Hw3 : forall l, printed w3 l
                  = printed w ([banner; "Discord File Sync Script"; banner] ++ l)%list).
    { intros l. unfold printed, w3. cbn. now rewrite <- !app_assoc. }
    assert (He : environ w3 = environ w) by reflexivity.
    subst line.
    destruct (env_missing (assoc_get "DISCORD_BOT_TOKEN" (environ w))) eqn:Ht.
    - rewrite get_env_vars_token_missing by now rewrite He.
      now rewrite Hw3.
    - destruct H as [H|H]; [discriminate|].
      rewrite get_env_vars_channel_missing by now rewrite He.
      now rewrite Hw3. }
  rewrite E. repeat split.
Qed.

Lemma main_missing_environment_witness :
  exit_status
    (fst (main ["repo"]
            (mkWorld [("DISCORD_BOT_TOKEN", "secret")] []
                     (fun _ => Raise RequestException) [] [] [])))
  = 1.
Proof.
  apply (main_missing_environment ["repo"]
           (mkWorld [("DISCORD_BOT_TOKEN", "secret")] []
                    (fun _ => Raise RequestException) [] [] [])).
  right. reflexivity.
Defined.

(* ================================================================== *)
(** * The message fetcher: claims C6 and C7 *)

Ltac fetch_cases :=
  unfold fetch_messages, bind, print, requests_get, lift, sys_exit, ret;
  cbn [environ stdout remote sent dirs files];
  repeat match goal with
         | |- context [match ?r with Ok _ => _ | Raise _ => _ end] =>
             destruct r; cbn [environ stdout remote sent dirs files]
         | |- context [if ?b then _ else _] =>
             destruct b; cbn [environ stdout remote sent dirs files]
         end.

(** Whatever the platform answers, the fetcher sends exactly one
    request, the one of [messages_request], and touches no file. *)
Lemma fetch_messages_effects (token channel_id : string) (limit : Z) (w : world) :
  sent (snd (fetch_messages token channel_id limit w))
  = (sent w ++ [messages_request token channel_id limit])%list
  /\ dirs (snd (fetch_messages token channel_id limit w)) = dirs w
  /\ files (snd (fetch_messages token channel_id limit w)) = files w
  /\ environ (snd (fetch_messages token channel_id limit w)) = environ w.
Proof.
  unfold messages_request. fetch_cases; repeat split.
Qed.

Lemma fetch_messages_answer (token channel_id : string) (limit : Z)
    (w : world) (r : response) :
  remote w (messages_request token channel_id limit) = Ok r ->
  let w1 := requested (printed w [fetching_line channel_id limit])
                      (messages_request token channel_id limit) in
  fetch_messages token channel_id limit w
  = if status_code r =? 200 then
      match json r with
      | Ok messages =>
          match py_len messages with
          | Ok n => (Ok messages,
                     printed w1 ["Successfully fetched " ++ str_of_nat n
                                 ++ " messages"])
          | Raise e => (Raise e, w1)
          end
      | Raise e => (Raise e, w1)
      end
    else if status_code r =? 401 then
      (Raise (SystemExit 1),
       printed w1 ["ERROR: Invalid bot token (401 Unauthorized)"])
    else if status_code r =? 403 then
      (Raise (SystemExit 1),
       printed w1 ["ERROR: Bot lacks permission to read this channel (403 Forbidden)"])
    else if status_code r =? 404 then
      (Raise (SystemExit 1),
       printed w1 ["ERROR: Channel not found (404 Not Found)"])
    else
      (Raise (SystemExit 1),
       printed w1 ["ERROR: Discord API returned status "
                   ++ str_of_Z (status_code r);
                   "Response: " ++ text r]).
Proof.
  intros Hr w1. subst w1.
  unfold fetch_messages, bind, print, requests_get, lift, sys_exit, ret.
  cbn [environ stdout remote sent dirs files].
  fold (fetching_line channel_id limit).
  fold (messages_request token channel_id limit).
  rewrite Hr. unfold printed, requested.
  cbn [environ stdout remote sent dirs files].
  destruct (status_code r =? 200).
  { destruct (json r) as [v|e]; [|reflexivity].
    destruct (py_len v); reflexivity. }
  destruct (status_code r =? 401); [reflexivity|].
  destruct (status_code r =? 403); [reflexivity|].
  destruct (status_code r =? 404); [reflexivity|].
  unfold lift. cbn [environ stdout remote sent dirs files].
  rewrite <- !app_assoc. reflexivity.
Qed.

(** With both environment values set, [main] is the fetch followed by
    the rest of the pipeline, and an exception of the fetch ends it. *)
Lemma main_after_credentials (script_dir : path) (w : world) :
  env_missing (assoc_get "DISCORD_BOT_TOKEN" (environ w)) = false ->
  env_missing (assoc_get "DISCORD_CHANNEL_ID" (environ w)) = false ->
  main script_dir w
  = (messages <- fetch_messages
                   (env_value (assoc_get "DISCORD_BOT_TOKEN" (environ w)))
                   (env_value (assoc_get "DISCORD_CHANNEL_ID" (environ w))) 100 ;;
     attachments <- extract_attachments messages ;;
     attachments <- lift (sort_attachments attachments) ;;
     write_json attachments (output_path_of script_dir) ;;
     print banner ;;
     print "Sync complete!" ;;
     print banner)%prog
      (printed w [banner; "Discord File Sync Script"; banner]).
Proof.
  intros Ht Hc. unfold main, bind at 1 2 3 4. cbn [print].
  set (w3 := mkWorld _ _ _ _ _ _).
  assert (E : w3 = printed w [banner; "Discord File Sync Script"; banner]).
  { unfold printed, w3. cbn. now rewrite <- !app_assoc. }
  rewrite get_env_vars_present by assumption.
  cbn [fst snd]. rewrite E. reflexivity.
Qed.

Lemma bind_raises {A B : Type} (m : M A) (k : A -> M B) (w : world) (e : exn) :
  fst (m w) = Raise e -> bind m k w = (Raise e, snd (m w)).
Proof.
  unfold bind. destruct (m w) as [[a|e'] w']; cbn [fst snd]; intros H.
  - discriminate.
  - now inversion H.
Qed.

Lemma main_fetch_raises (script_dir : path) (w : world) (e : exn) :
  env_missing (assoc_get "DISCORD_BOT_TOKEN" (environ w)) = false ->
  env_missing (assoc_get "DISCORD_CHANNEL_ID" (environ w)) = false ->
  fst (fetch_messages
         (env_value (assoc_get "DISCORD_BOT_TOKEN" (environ w)))
         (env_value (assoc_get "DISCORD_CHANNEL_ID" (environ w))) 100
         (printed w [banner; "Discord File Sync Script"; banner]))
  = Raise e ->
  fst (main script_dir w) = Raise e
  /\ dirs (snd (main script_dir w)) = dirs w
  /\ files (snd (main script_dir w)) = files w.
Proof.
  intros Ht Hc Hf. rewrite main_after_credentials by assumption.
  rewrite (bind_raises _ _ _ e Hf). cbn [fst snd].
  pose proof (fetch_messages_effects
                (env_value (assoc_get "DISCORD_BOT_TOKEN" (environ w)))
                (env_value (assoc_get "DISCORD_CHANNEL_ID" (environ w))) 100
                (printed w [banner; "Discord File Sync Script"; banner]))
    as (_ & Hd & Hfl & _).
  repeat split; assumption.
Qed.

(** C6: the fetcher by the status of the answer.  On 200 the decoded
    array is returned; on 401, 403 and 404 the line for the invalid
    token, the missing permission and the unknown channel is printed;
    on any other status the status and the raw body are printed; every
    status but 200 ends in [sys.exit(1)], and the whole run then ends
    with exit status 1 and the directories and files as they were. *)
Theorem fetch_messages_by_status (token channel_id : string) (limit : Z)
    (w : world) (r : response) :
  remote w (messages_request token channel_id limit) = Ok r ->
  let w1 := requested (printed w [fetching_line channel_id limit])
                      (messages_request token channel_id limit) in
  (forall msgs, status_code r = 200 -> json r = Ok (PList msgs) ->
     fetch_messages token channel_id limit w
     = (Ok (PList msgs),
        printed w1 ["Successfully fetched " ++ str_of_nat (List.length msgs)
                    ++ " messages"]))
  /\ (status_code r = 401 ->
      fetch_messages token channel_id limit w
      = (Raise (SystemExit 1),
         printed w1 ["ERROR: Invalid bot token (401 Unauthorized)"]))
  /\ (status_code r = 403 ->
      fetch_messages token channel_id limit w
      = (Raise (SystemExit 1),
         printed w1 ["ERROR: Bot lacks permission to read this channel (403 Forbidden)"]))
  /\ (status_code r = 404 ->
      fetch_messages token channel_id limit w
      = (Raise (SystemExit 1),
         printed w1 ["ERROR: Channel not found (404 Not Found)"]))
  /\ (status_code r <> 200 -> status_code r <> 401 ->
      status_code r <> 403 -> status_code r <> 404 ->
      fetch_messages token channel_id limit w
      = (Raise (SystemExit 1),
         printed w1 ["ERROR: Discord API returned status "
                     ++ str_of_Z (status_code r);
                     "Response: " ++ text r]))
  /\ (status_code r <> 200 ->
      fst (fetch_messages token channel_id limit w) = Raise (SystemExit 1))
  /\ (forall script_dir,
        status_code r <> 200 ->
        limit = 100 ->
        env_missing (assoc_get "DISCORD_BOT_TOKEN" (environ w)) = false ->
        env_missing (assoc_get "DISCORD_CHANNEL_ID" (environ w)) = false ->
        token = env_value (assoc_get "DISCORD_BOT_TOKEN" (environ w)) ->
        channel_id = env_value (assoc_get "DISCORD_CHANNEL_ID" (environ w)) ->
        exit_status (fst (main script_dir w)) = 1
        /\ dirs (snd (main script_dir w)) = dirs w
        /\ files (snd (main script_dir w)) = files w).
Proof.
  intros Hr w1.
  pose proof (fetch_messages_answer token channel_id limit w r Hr) as E.
  cbv zeta in E. fold w1 in E.
  assert (Hfatal : status_code r <> 200 ->
                   fst (fetch_messages token channel_id limit w)
                   = Raise (SystemExit 1)).
  { intros H. rewrite E.
    destruct (Z.eqb_spec (status_code r) 200); [contradiction|].
    destruct (status_code r =? 401); [reflexivity|].
    destruct (status_code r =? 403); [reflexivity|].
    destruct (status_code r =? 404); reflexivity. }
  repeat match goal with |- _ /\ _ => split end.
  - intros msgs Hs Hj. rewrite E, Hs, Hj. reflexivity.
  - intros Hs. rewrite E, Hs. reflexivity.
  - intros Hs. rewrite E, Hs. reflexivity.
  - intros Hs. rewrite E, Hs. reflexivity.
  - intros H2 H401 H403 H404. rewrite E.
    destruct (Z.eqb_spec (status_code r) 200); [contradiction|].
    destruct (Z.eqb_spec (status_code r) 401); [contradiction|].
    destruct (Z.eqb_spec (status_code r) 403); [contradiction|].
    destruct (Z.eqb_spec (status_code r) 404); [contradiction|].
    reflexivity.
  - exact Hfatal.
  - intros script_dir Hs Hl Ht Hc Etok Ech. subst limit.
    assert (Hf : fst (fetch_messages token channel_id 100
                        (printed w [banner; "Discord File Sync Script"; banner]))
                 = Raise (SystemExit 1)).
    { pose proof (fetch_messages_answer token channel_id 100
                    (printed w [banner; "Discord File Sync Script"; banner])
                    r Hr) as E'.
      cbv zeta in E'. rewrite E'.
      destruct (Z.eqb_spec (status_code r) 200); [contradiction|].
      destruct (status_code r =? 401); [reflexivity|].
      destruct (status_code r =? 403); [reflexivity|].
      destruct (status_code r =? 404); reflexivity. }
    rewrite Etok, Ech in Hf.
    destruct (main_fetch_raises script_dir w _ Ht Hc Hf) as (Hm & Hd & Hfl).
    rewrite Hm. repeat split; assumption.
Qed.

Lemma fetch_messages_by_status_witness :
  fst (fetch_messages "secret" "42" 100
         (world_answering (mkResponse 403 "{}" (Raise ValueError))))
  = Raise (SystemExit 1)
  /\ files (snd (main ["repo"]
                   (world_answering (mkResponse 403 "{}" (Raise ValueError)))))
     = [(["repo"; "docs"; "files.json"], "[]")].
Proof.
  pose proof (fetch_messages_by_status "secret" "42" 100
                (world_answering (mkResponse 403 "{}" (Raise ValueError)))
                (mkResponse 403 "{}" (Raise ValueError)) eq_refl) as H.
  cbv zeta in H. destruct H as (_ & _ & _ & _ & _ & Hfatal & Hmain). split.
  - apply Hfatal. discriminate.
  - apply (Hmain ["repo"]); try reflexivity. discriminate.
Defined.

(** C7: the request carries [limit] equal to the smaller of the
    supplied value and 100: 100 for any value above 100, the value
    itself otherwise, and 100 by default. *)
Theorem fetch_messages_limit_clamped (token channel_id : string) (limit : Z)
    (w : world) :
  map req_params
      (skipn (List.length (sent w))
             (sent (snd (fetch_messages token channel_id limit w))))
  = [[("limit", if 100 <? limit then 100 else limit)]]
  /\ sent (snd (fetch_messages_default token channel_id w))
     = (sent w ++ [messages_request token channel_id 100])%list
  /\ req_params (messages_request token channel_id 100) = [("limit", 100)].
Proof.
  destruct (fetch_messages_effects token channel_id limit w) as (Hs & _).
  destruct (fetch_messages_effects token channel_id 100 w) as (Hs' & _).
  rewrite Hs. split; [|split; [exact Hs' | reflexivity]].
  rewrite skipn_app, skipn_all, Nat.sub_diag. cbn.
  unfold Z.min. destruct (Z.ltb_spec 100 limit) as [H|H].
  - destruct (Z.compare_spec limit 100); try lia; reflexivity.
  - destruct (Z.compare_spec limit 100); try lia; subst; reflexivity.
Qed.

(* ================================================================== *)
(** * The two parsing branches: claim C9 *)

Lemma parse_timestamp_unify (item : pyval) :
  uploaded_at_is_str item = true ->
  parse_timestamp item = parse_timestamp_unified item.
Proof.
  unfold uploaded_at_is_str, parse_timestamp, parse_timestamp_unified.
  destruct item as [| | | | |d]; try reflexivity.
  rewrite py_get_dict. cbn [rbind].
  destruct (field (PDict d) "uploaded_at" (PStr "")) as [| | |s| |];
    try discriminate.
  intros _. destruct (py_truthy (PStr s)); [|reflexivity].
  cbn [py_contains_char rbind].
  destruct (str_has_char "." s); reflexivity.
Qed.

Lemma keyed_ext {A K : Type} (f g : A -> result K) (l : list A) :
  (forall x, In x l -> f x = g x) -> keyed f l = keyed g l.
Proof.
  induction l as [|x l IH]; intros H; [reflexivity|].
  cbn [keyed]. rewrite (H x (or_introl eq_refl)).
  rewrite IH by (intros z Hz; apply H; now right). reflexivity.
Qed.

(** C9, amended: the branch for a timestamp with a dot and the branch
    for one without are the same function, and on records whose
    [uploaded_at] is a string the key function with the branches
    unified returns what the source's returns, and the sorter built on
    it returns what the source's returns on every list of such
    records. *)
Theorem parse_branches_unify (l : list pyval) :
  forallb uploaded_at_is_str l = true ->
  (forall ts, parse_with_microseconds ts = parse_without_microseconds ts)
  /\ (forall item, In item l ->
        parse_timestamp item = parse_timestamp_unified item)
  /\ sort_attachments l = sort_attachments_unified l.
Proof.
  intros H. rewrite forallb_forall in H.
  split; [reflexivity|]. split.
  - intros item Hin. apply parse_timestamp_unify. now apply H.
  - unfold sort_attachments, sort_attachments_unified, sorted.
    rewrite (keyed_ext parse_timestamp parse_timestamp_unified); [reflexivity|].
    intros x Hx. apply parse_timestamp_unify. now apply H.
Qed.

(** C9 as stated, on any record list, fails: for a record whose
    [uploaded_at] is the number 5 (the extractor copies a numeric
    timestamp as it is) the test for a dot raises [TypeError], which the
    source catches, so the source's sorter returns; without the test the
    call of [replace] raises [AttributeError], which nothing catches. *)
Lemma parse_branches_differ_on_number :
  extract_loop [PDict [("timestamp", PInt 5); ("attachments", PList [PDict []])]] []
  = Ok [PDict [("name", PStr "unknown"); ("url", PStr "");
               ("uploaded_at", PInt 5); ("author", PStr "Unknown");
               ("size", PInt 0); ("content_type", PStr "")]]
  /\ sort_attachments
       [PDict [("name", PStr "unknown"); ("url", PStr "");
               ("uploaded_at", PInt 5); ("author", PStr "Unknown");
               ("size", PInt 0); ("content_type", PStr "")]]
     = Ok [PDict [("name", PStr "unknown"); ("url", PStr "");
                  ("uploaded_at", PInt 5); ("author", PStr "Unknown");
                  ("size", PInt 0); ("content_type", PStr "")]]
  /\ sort_attachments_unified
       [PDict [("name", PStr "unknown"); ("url", PStr "");
               ("uploaded_at", PInt 5); ("author", PStr "Unknown");
               ("size", PInt 0); ("content_type", PStr "")]]
     = Raise AttributeError
  /\ ~ (forall l, sort_attachments l = sort_attachments_unified l).
Proof.
  split; [reflexivity|]. split; [reflexivity|]. split; [reflexivity|].
  intros H.
  specialize (H [PDict [("uploaded_at", PInt 5)]]). discriminate H.
Qed.

Lemma parse_branches_unify_witness :
  sort_attachments
    [record_at "2024-01-01T00:00:00.000000+00:00";
     record_at "2024-06-01T12:00:00Z"; record_at "2024-03-01T08:30:00+00:00"]
  = sort_attachments_unified
      [record_at "2024-01-01T00:00:00.000000+00:00";
       record_at "2024-06-01T12:00:00Z"; record_at "2024-03-01T08:30:00+00:00"].
Proof.
  apply (parse_branches_unify
           [record_at "2024-01-01T00:00:00.000000+00:00";
            record_at "2024-06-01T12:00:00Z";
            record_at "2024-03-01T08:30:00+00:00"]).
  reflexivity.
Defined.

(* ================================================================== *)
(** * The writer: claim C8 *)

Lemma path_eqb_eq (p q : path) : path_eqb p q = true <-> p = q.
Proof.
  revert q. induction p as [|a p IH]; intros [|b q]; simpl;
    try (split; [discriminate|discriminate]); [tauto|].
  rewrite andb_true_iff, String.eqb_eq, IH.
  split; [intros [-> ->]; reflexivity | intros E; inversion E; auto].
Qed.

Lemma path_eqb_refl (p : path) : path_eqb p p = true.
Proof. now apply path_eqb_eq. Qed.

Lemma path_eqb_neq (p q : path) : p <> q -> path_eqb p q = false.
Proof.
  intros H. destruct (path_eqb p q) eqn:E; [|reflexivity].
  apply path_eqb_eq in E. contradiction.
Qed.

Lemma is_dir_iff (w : world) (p : path) :
  is_dir w p = true <-> p = [] \/ In p (dirs w).
Proof.
  unfold is_dir. destruct p as [|a p]; [tauto|].
  rewrite existsb_exists. split.
  - intros (q & Hq & E). apply path_eqb_eq in E. subst q. now right.
  - intros [E|H]; [discriminate|]. exists (a :: p). split; [assumption|].
    apply path_eqb_refl.
Qed.

Lemma prefixes_length (p q : path) :
  In q (prefixes p) -> (List.length q <= List.length p)%nat.
Proof.
  unfold prefixes. intros H. apply in_map_iff in H as (n & <- & _).
  rewrite length_firstn. apply Nat.le_min_r.
Qed.

Lemma prefixes_self (p : path) : p <> [] -> In p (prefixes p).
Proof.
  intros H. unfold prefixes. apply in_map_iff.
  exists (List.length p). split; [apply firstn_all|].
  apply in_seq. destruct p; [contradiction|simpl; lia].
Qed.

Lemma parent_length (p : path) :
  p <> [] -> (List.length (parent p) < List.length p)%nat.
Proof.
  intros H. unfold parent. destruct (exists_last H) as (q & a & ->).
  rewrite removelast_last, length_app. simpl. lia.
Qed.

(** When no regular file is in the way, [mkdir] creates the listed
    directories, keeps those that exist, and touches nothing else. *)
Lemma mkdir_each_spec (target : path) (ps : list path) :
  forall w,
    (forall q, In q ps -> is_file w q = false) ->
    exists w',
      mkdir_each target ps w = (Ok tt, w')
      /\ files w' = files w /\ stdout w' = stdout w /\ sent w' = sent w
      /\ environ w' = environ w /\ remote w' = remote w
      /\ (forall q, In q ps -> is_dir w' q = true)
      /\ (forall q, is_dir w' q = true <-> is_dir w q = true \/ In q ps).
Proof.
  induction ps as [|p ps IH]; intros w Hf.
  - exists w. repeat split; try reflexivity.
    + intros q [].
    + now left.
    + intros [H|[]]. exact H.
  - cbn [mkdir_each].
    assert (Hrest : forall w0, files w0 = files w ->
                      forall q, In q ps -> is_file w0 q = false).
    { intros w0 E q Hq. unfold is_file. rewrite E. apply Hf. now right. }
    destruct (is_dir w p) eqn:Ed.
    + destruct (IH w (Hrest w eq_refl))
        as (w' & E & H1 & H2 & H3 & H4 & H5 & H6 & H7).
      exists w'. repeat split; try assumption.
      * intros q [<-|Hq]; [apply H7; now left | now apply H6].
      * intros H. apply H7 in H. simpl. tauto.
      * intros [H|[<-|H]]; apply H7; auto.
    + rewrite (Hf p (or_introl eq_refl)).
      destruct (IH (add_dir p w) (Hrest (add_dir p w) eq_refl))
        as (w' & E & H1 & H2 & H3 & H4 & H5 & H6 & H7).
      assert (Ha : forall q, is_dir (add_dir p w) q = true
                             <-> is_dir w q = true \/ q = p).
      { intros q. rewrite !is_dir_iff. unfold add_dir. simpl.
        split; intros H; intuition congruence. }
      exists w'. repeat split; try assumption.
      * intros q [<-|Hq]; [|now apply H6].
        apply H7. left. apply Ha. now right.
      * intros H. apply H7 in H as [H|H]; [|simpl; tauto].
        apply Ha in H as [H| ->]; simpl; auto.
      * intros [H|[<-|H]]; apply H7; auto; left; apply Ha; auto.
Qed.

Lemma find_written (fs : list (path * string)) (p q : path) (content : string) :
  match find (fun f => path_eqb q (fst f))
             ((p, content) :: filter (fun f => negb (path_eqb p (fst f))) fs)
  with
  | Some f => Some (snd f)
  | None => None
  end
  = if path_eqb q p then Some content
    else match find (fun f => path_eqb q (fst f)) fs with
         | Some f => Some (snd f)
         | None => None
         end.
Proof.
  cbn [find fst snd].
  destruct (path_eqb q p) eqn:E; [reflexivity|].
  assert (Hne : q <> p) by (intros ->; now rewrite path_eqb_refl in E).
  induction fs as [|[f c] fs IH]; [reflexivity|].
  cbn [filter find fst snd].
  destruct (path_eqb p f) eqn:Ep; cbn [negb find fst snd].
  - apply path_eqb_eq in Ep. subst f.
    rewrite (path_eqb_neq q p Hne). exact IH.
  - destruct (path_eqb q f); [reflexivity|exact IH].
Qed.

Lemma write_json_spec (attachments : list pyval) (output_path : path) (w : world) :
  is_dir w output_path = false ->
  (forall q, In q (prefixes (parent output_path)) -> is_file w q = false) ->
  exists w',
    write_json attachments output_path w = (Ok tt, w')
    /\ (forall q, read_file w' q
                  = if path_eqb q output_path
                    then Some (dumps 0 (PList attachments))
                    else read_file w q)
    /\ (forall q, In q (prefixes (parent output_path)) -> is_dir w' q = true)
    /\ (forall q, is_dir w q = true -> is_dir w' q = true)
    /\ stdout w'
       = (stdout w
          ++ [("Wrote " ++ str_of_nat (List.length attachments)
               ++ " entries to " ++ str_of_path output_path)%string])%list
    /\ sent w' = sent w.
Proof.
  intros Hnd Hnf.
  destruct (mkdir_each_spec (parent output_path)
              (prefixes (parent output_path)) w Hnf)
    as (w1 & E & H1 & H2 & H3 & H4 & H5 & H6 & H7).
  assert (Hp : output_path <> []) by (intros ->; discriminate).
  assert (Hd1 : is_dir w1 output_path = false).
  { destruct (is_dir w1 output_path) eqn:Ed; [|reflexivity].
    apply H7 in Ed as [Ed|Ed]; [congruence|].
    apply prefixes_length in Ed. pose proof (parent_length _ Hp). lia. }
  assert (Hd2 : is_dir w1 (parent output_path) = true).
  { destruct (parent output_path) as [|a q] eqn:Eq; [reflexivity|].
    apply H6. apply prefixes_self. discriminate. }
  unfold write_json, mkdir_parents, bind. rewrite E.
  unfold write_text. rewrite Hd1, Hd2. cbn [negb print].
  eexists. split; [reflexivity|].
  cbn [stdout sent files dirs environ remote].
  repeat split.
  - intros q. unfold read_file. cbn [files].
    rewrite find_written, H1. reflexivity.
  - intros q Hq. pose proof (H6 q Hq) as Hq'.
    apply is_dir_iff. apply is_dir_iff in Hq'. exact Hq'.
  - intros q Hq. apply is_dir_iff.
    assert (Hq' : is_dir w1 q = true) by (apply H7; now left).
    apply is_dir_iff in Hq'. exact Hq'.
  - now rewrite H2.
  - assumption.
Qed.

Lemma bind_ok {A B : Type} (m : M A) (k : A -> M B) (w w' : world) (a : A) :
  m w = (Ok a, w') -> bind m k w = k a w'.
Proof. unfold bind. now intros ->. Qed.

(** A complete run: the answer is 200 with an array of messages of the
    data model, the sorter returns, and nothing is in the way of the
    output file. *)
Lemma main_success (script_dir : path) (w : world) (r : response)
    (msgs out : list pyval) :
  env_missing (assoc_get "DISCORD_BOT_TOKEN" (environ w)) = false ->
  env_missing (assoc_get "DISCORD_CHANNEL_ID" (environ w)) = false ->
  remote w (messages_request
              (env_value (assoc_get "DISCORD_BOT_TOKEN" (environ w)))
              (env_value (assoc_get "DISCORD_CHANNEL_ID" (environ w))) 100)
  = Ok r ->
  status_code r = 200 ->
  json r = Ok (PList msgs) ->
  forallb wf_message msgs = true ->
  sort_attachments (flat_map spec_records msgs) = Ok out ->
  is_dir w (output_path_of script_dir) = false ->
  (forall q, In q (prefixes (parent (output_path_of script_dir))) ->
             is_file w q = false) ->
  exists w',
    main script_dir w = (Ok tt, w')
    /\ read_file w' (output_path_of script_dir) = Some (dumps 0 (PList out))
    /\ stdout w'
       = (stdout w
          ++ [banner; "Discord File Sync Script"; banner;
              fetching_line
                (env_value (assoc_get "DISCORD_CHANNEL_ID" (environ w))) 100;
              ("Successfully fetched " ++ str_of_nat (List.length msgs)
               ++ " messages")%string;
              ("Extracted " ++ str_of_nat (total_attachments msgs)
               ++ " attachments")%string;
              ("Wrote " ++ str_of_nat (List.length out) ++ " entries to "
               ++ str_of_path (output_path_of script_dir))%string;
              banner; "Sync complete!"; banner])%list
    /\ sent w'
       = (sent w
          ++ [messages_request
                (env_value (assoc_get "DISCORD_BOT_TOKEN" (environ w)))
                (env_value (assoc_get "DISCORD_CHANNEL_ID" (environ w))) 100])%list.
Proof.
  intros Ht Hc Hr Hs Hj Hwf Hsort Hnd Hnf.
  rewrite main_after_credentials by assumption.
  set (tok := env_value (assoc_get "DISCORD_BOT_TOKEN" (environ w))) in *.
  set (ch := env_value (assoc_get "DISCORD_CHANNEL_ID" (environ w))) in *.
  set (w0 := printed w [banner; "Discord File Sync Script"; banner]).
  pose proof (fetch_messages_answer tok ch 100 w0 r Hr) as Ef.
  cbv zeta in Ef. rewrite Hs, Hj in Ef. cbn [Z.eqb Pos.eqb py_len] in Ef.
  rewrite (bind_ok _ _ _ _ _ Ef). cbv beta.
  set (w1 := printed (requested (printed w0 [fetching_line ch 100])
                                (messages_request tok ch 100)) _).
  rewrite (bind_ok _ _ _ _ _ (extract_attachments_wf msgs w1 Hwf)). cbv beta.
  set (w2 := printed w1 _).
  rewrite (bind_ok _ _ w2 w2 out) by (unfold lift; now rewrite Hsort).
  cbv beta.
  destruct (write_json_spec out (output_path_of script_dir) w2 Hnd Hnf)
    as (w3 & Ew & Hread & _ & _ & Hout & Hsent).
  rewrite (bind_ok _ _ _ _ _ Ew).
  unfold bind, print. cbn [stdout sent files dirs environ remote].
  eexists. split; [reflexivity|]. repeat split.
  - unfold read_file. cbn [files]. fold (read_file w3 (output_path_of script_dir)).
    rewrite Hread, path_eqb_refl. reflexivity.
  - cbn [stdout]. rewrite Hout. unfold w2, w1, w0, printed, requested.
    cbn [stdout]. rewrite <- !app_assoc. reflexivity.
  - cbn [sent]. rewrite Hsent. reflexivity.
Qed.

Lemma str_app_assoc (a b c : string) : ((a ++ b) ++ c = a ++ (b ++ c))%string.
Proof.
  induction a as [|x a IH]; [reflexivity|]. simpl. now rewrite IH.
Qed.

Lemma join_indent (sep ind : string) (xs : list string) :
  xs <> [] ->
  (ind ++ join (sep ++ ind) xs)%string = join sep (map (append ind) xs).
Proof.
  induction xs as [|x xs IH]; intros H; [contradiction|].
  destruct xs as [|y xs]; [reflexivity|].
  change (join (sep ++ ind) (x :: y :: xs))
    with (x ++ (sep ++ ind) ++ join (sep ++ ind) (y :: xs))%string.
  change (join sep (map (append ind) (x :: y :: xs)))
    with ((ind ++ x) ++ sep ++ join sep (map (append ind) (y :: xs)))%string.
  rewrite <- IH by discriminate.
  now rewrite !str_app_assoc.
Qed.

(** A non-empty array is written one item per line, each item indented
    by two spaces per nesting level. *)
Lemma dumps_list_lines (level : nat) (l : list pyval) :
  l <> [] ->
  dumps level (PList l)
  = ("[" ++ newline
     ++ join ("," ++ newline)
             (map (fun x => spaces (2 * S level) ++ dumps (S level) x) l)
     ++ newline ++ spaces (2 * level) ++ "]")%string.
Proof.
  intros H. destruct l as [|x l]; [contradiction|].
  cbn [dumps]. unfold newline_indent.
  rewrite !str_app_assoc. f_equal. f_equal.
  rewrite <- (str_app_assoc (spaces (2 * S level))).
  rewrite <- (str_app_assoc ","), join_indent, map_map
    by (intros E; apply map_eq_nil in E; discriminate).
  reflexivity.
Qed.

(** A non-empty object is written one item per line, in the order the
    dict holds its keys. *)
Lemma dumps_dict_lines (level : nat) (d : list (string * pyval)) :
  d <> [] ->
  dumps level (PDict d)
  = ("{" ++ newline
     ++ join ("," ++ newline)
             (map (fun kv => spaces (2 * S level) ++ json_string (fst kv)
                             ++ ": " ++ dumps (S level) (snd kv)) d)
     ++ newline ++ spaces (2 * level) ++ "}")%string.
Proof.
  intros H. destruct d as [|x d]; [contradiction|].
  cbn [dumps]. unfold newline_indent.
  rewrite !str_app_assoc. f_equal. f_equal.
  rewrite <- (str_app_assoc (spaces (2 * S level))).
  rewrite <- (str_app_assoc ","), join_indent, map_map
    by (intros E; apply map_eq_nil in E; discriminate).
  f_equal. f_equal. apply map_ext. intros [k v]. reflexivity.
Qed.

(** A byte of a non-ASCII character is written as it is. *)
Lemma escape_char_non_ascii (c : ascii) :
  (128 <= nat_of_ascii c)%nat -> escape_char c = String c EmptyString.
Proof.
  intros H. unfold escape_char.
  repeat match goal with
         | |- context [Nat.eqb ?a ?b] =>
             destruct (Nat.eqb_spec a b); [lia|]
         end.
  destruct (Nat.ltb_spec (nat_of_ascii c) 32); [lia|reflexivity].
Qed.

(** *** The chunks of encodable values *)

Fixpoint pyval_nested_ind (P : pyval -> Prop)
    (HNone : P PNone) (HBool : forall b, P (PBool b))
    (HInt : forall z, P (PInt z)) (HStr : forall s, P (PStr s))
    (HList : forall l, Forall P l -> P (PList l))
    (HDict : forall d, Forall (fun kv => P (snd kv)) d -> P (PDict d))
    (v : pyval) : P v :=
  match v with
  | PNone => HNone
  | PBool b => HBool b
  | PInt z => HInt z
  | PStr s => HStr s
  | PList l =>
      HList l
        ((fix all (l : list pyval) : Forall P l :=
            match l with
            | [] => Forall_nil P
            | x :: rest =>
                Forall_cons x
                  (pyval_nested_ind P HNone HBool HInt HStr HList HDict x)
                  (all rest)
            end) l)
  | PDict d =>
      HDict d
        ((fix all (d : list (string * pyval))
            : Forall (fun kv => P (snd kv)) d :=
            match d with
            | [] => Forall_nil _
            | kv :: rest =>
                Forall_cons kv
                  (pyval_nested_ind P HNone HBool HInt HStr HList HDict (snd kv))
                  (all rest)
            end) d)
  end.

Lemma str_app_nil_r (s : string) : (s ++ "")%string = s.
Proof. induction s as [|c s IH]; [reflexivity|]. simpl. now rewrite IH. Qed.

Lemma chunks_text_app (a b : list chunk) :
  chunks_text (a ++ b)
  = match chunks_text a, chunks_text b with
    | Some x, Some y => Some (x ++ y)%string
    | _, _ => None
    end.
Proof.
  induction a as [|[c|] a IH]; cbn [app chunks_text].
  - destruct (chunks_text b); reflexivity.
  - rewrite IH. destruct (chunks_text a), (chunks_text b); try reflexivity.
    now rewrite str_app_assoc.
  - reflexivity.
Qed.

Lemma write_each_text (cs : list chunk) (t : string) :
  chunks_text cs = Some t ->
  forall written, write_each cs written = (Ok tt, (written ++ t)%string).
Proof.
  revert t. induction cs as [|[c|] cs IH]; intros t H written;
    cbn [chunks_text write_each] in *.
  - inversion H. now rewrite str_app_nil_r.
  - destruct (chunks_text cs) as [t'|]; [|discriminate]. inversion H.
    rewrite (IH t' eq_refl). now rewrite str_app_assoc.
  - discriminate.
Qed.

(** An item of an array after what precedes it. *)
Lemma item_chunks_text (level : nat) (x : pyval) (buf : string) :
  chunks_text (iterencode level (text_of x)) = Some (dumps level x) ->
  chunks_text
    match scalar_chunk (text_of x) with
    | Some c => [prepend buf c]
    | None => Some buf :: iterencode level (text_of x)
    end
  = Some (buf ++ dumps level x)%string.
Proof.
  intros H. destruct x as [| [] | z | s | l | d];
    try (cbn; now rewrite str_app_nil_r).
  - cbn [text_of scalar_chunk chunks_text] in *. now rewrite H.
  - cbn [text_of scalar_chunk chunks_text] in *. now rewrite H.
Qed.

Lemma value_chunks_text (level : nat) (x : pyval) :
  chunks_text (iterencode level (text_of x)) = Some (dumps level x) ->
  chunks_text
    match scalar_chunk (text_of x) with
    | Some c => [c]
    | None => iterencode level (text_of x)
    end
  = Some (dumps level x).
Proof.
  intros H. destruct x as [| [] | z | s | l | d];
    try (cbn; now rewrite str_app_nil_r); exact H.
Qed.

Lemma list_chunks_text (level : nat) (sep : string) (l : list pyval) :
  Forall (fun x => forall lv,
            chunks_text (iterencode lv (text_of x)) = Some (dumps lv x)) l ->
  forall buf,
    chunks_text (list_chunks (iterencode level) sep buf (map text_of l))
    = Some match l with
           | [] => EmptyString
           | _ => (buf ++ join sep (map (dumps level) l))%string
           end.
Proof.
  induction 1 as [|x l Hx _ IH]; intros buf; [reflexivity|].
  cbn [map list_chunks]. rewrite chunks_text_app.
  rewrite (item_chunks_text level x buf (Hx level)), (IH sep).
  destruct l as [|y l]; cbn [map join].
  - now rewrite str_app_nil_r.
  - now rewrite str_app_assoc.
Qed.

Lemma dict_chunks_text (level : nat) (sep : string) (d : list (string * pyval)) :
  Forall (fun kv => forall lv,
            chunks_text (iterencode lv (text_of (snd kv)))
            = Some (dumps lv (snd kv))) d ->
  forall first,
    chunks_text
      (dict_chunks (iterencode level) sep first
         (map (fun kv => match kv with
                         | (k, x) => (Utf8 k, text_of x)
                         end) d))
    = Some match d with
           | [] => EmptyString
           | _ => ((if first then "" else sep)
                   ++ join sep
                        (map (fun kv => match kv with
                                        | (k, x) => json_string k ++ ": "
                                                    ++ dumps level x
                                        end) d))%string
           end.
Proof.
  induction 1 as [|[k x] d Hx _ IH]; intros first; [reflexivity|].
  cbn [map dict_chunks]. rewrite chunks_text_app.
  cbn [snd] in Hx.
  assert (E : chunks_text
                (encoder (Utf8 k) :: Some ": "
                 :: match scalar_chunk (text_of x) with
                    | Some c => [c]
                    | None => iterencode level (text_of x)
                    end ++ dict_chunks (iterencode level) sep false
                             (map (fun kv => match kv with
                                             | (k0, x0) => (Utf8 k0, text_of x0)
                                             end) d))
              = Some (json_string k ++ ": " ++ dumps level x
                      ++ match d with
                         | [] => EmptyString
                         | _ => (sep ++ join sep
                                   (map (fun kv => match kv with
                                                   | (k0, x0) =>
                                                       json_string k0 ++ ": "
                                                       ++ dumps level x0
                                                   end) d))
                         end)%string).
  { cbn [encoder chunks_text]. rewrite chunks_text_app.
    rewrite (value_chunks_text level x (Hx level)), (IH false).
    destruct d; reflexivity. }
  rewrite E. destruct first; cbn [chunks_text];
    destruct d as [|kv d]; cbn [map join];
    rewrite ?str_app_nil_r, ?str_app_assoc; reflexivity.
Qed.

(** The chunks of a value whose strings all have bytes are all
    accepted, and together they are the text of [dumps]. *)
Lemma iterencode_text (v : pyval) :
  forall level,
    chunks_text (iterencode level (text_of v)) = Some (dumps level v).
Proof.
  induction v as [| b | z | s | l IH | d IH] using pyval_nested_ind;
    intros level.
  - reflexivity.
  - destruct b; reflexivity.
  - cbn. now rewrite str_app_nil_r.
  - cbn. now rewrite str_app_nil_r.
  - destruct l as [|x l]; [reflexivity|].
    change (text_of (PList (x :: l))) with (TList (map text_of (x :: l))).
    change (iterencode level (TList (map text_of (x :: l))))
      with (list_chunks (iterencode (S level)) ("," ++ newline_indent (S level))
                        ("[" ++ newline_indent (S level)) (map text_of (x :: l))
            ++ [Some (newline_indent level); Some "]"])%list.
    rewrite chunks_text_app, (list_chunks_text (S level) _ (x :: l) IH).
    cbn [chunks_text dumps]. now rewrite !str_app_assoc, str_app_nil_r.
  - destruct d as [|kv d]; [reflexivity|].
    change (text_of (PDict (kv :: d)))
      with (TDict (map (fun kv => match kv with
                                  | (k, x) => (Utf8 k, text_of x)
                                  end) (kv :: d))).
    set (td := map _ (kv :: d)).
    assert (Etd : iterencode level (TDict td)
                  = (Some "{" :: Some (newline_indent (S level))
                     :: dict_chunks (iterencode (S level))
                          ("," ++ newline_indent (S level)) true td
                     ++ [Some (newline_indent level); Some "}"])%list).
    { unfold td. destruct kv. reflexivity. }
    rewrite Etd. cbn [chunks_text]. rewrite chunks_text_app. unfold td.
    rewrite (dict_chunks_text (S level) _ (kv :: d) IH).
    cbn [chunks_text dumps]. now rewrite !str_app_assoc, str_app_nil_r.
Qed.

Lemma unescape_escape_char (c : ascii) (rest : string) :
  unescape (escape_char c ++ rest)
  = match unescape rest with
    | Some t => Some (String c t)
    | None => None
    end.
Proof.
  destruct c as [[] [] [] [] [] [] [] []]; reflexivity.
Qed.

(** The escaped text of a string reads back as the string. *)
Lemma unescape_escape_string (s : string) :
  unescape (escape_string s) = Some s.
Proof.
  induction s as [|c s IH]; [reflexivity|].
  cbn [escape_string]. now rewrite unescape_escape_char, IH.
Qed.

Lemma escape_string_plain (s : string) :
  plain s = true -> escape_string s = s.
Proof.
  unfold plain. induction s as [|c s IH]; [reflexivity|].
  cbn [list_ascii_of_string forallb escape_string].
  intros H. apply andb_true_iff in H as [Hc Hs]. rewrite (IH Hs).
  unfold plain_char in Hc.
  apply andb_true_iff in Hc as [Hc H92].
  apply andb_true_iff in Hc as [H32 H34].
  apply Nat.leb_le in H32.
  apply negb_true_iff, Nat.eqb_neq in H34, H92.
  unfold escape_char.
  repeat match goal with
         | |- context [Nat.eqb ?a ?b] =>
             destruct (Nat.eqb_spec a b); [lia|]
         end.
  destruct (Nat.ltb_spec (nat_of_ascii c) 32); [lia|reflexivity].
Qed.

Lemma plain_char_non_ascii (c : ascii) :
  (128 <= nat_of_ascii c)%nat -> plain_char c = true.
Proof.
  intros H. unfold plain_char.
  destruct (Nat.leb_spec 32 (nat_of_ascii c)); [|lia].
  destruct (Nat.eqb_spec (nat_of_ascii c) 34); [lia|].
  destruct (Nat.eqb_spec (nat_of_ascii c) 92); [lia|reflexivity].
Qed.

(** On values whose strings all have bytes the chunk-wise writer is
    [write_json]. *)
Lemma write_json_text_encodable (attachments : list pyval) (output_path : path)
    (w : world) :
  write_json_text (map text_of attachments) output_path w
  = write_json attachments output_path w.
Proof.
  unfold write_json_text, write_json, bind.
  destruct (mkdir_parents (parent output_path) w) as [[u|e] w1]; [|reflexivity].
  rewrite length_map.
  assert (E : write_chunks output_path
                (iterencode 0 (TList (map text_of attachments))) w1
              = write_text output_path (dumps 0 (PList attachments)) w1).
  { unfold write_chunks, write_text.
    change (TList (map text_of attachments)) with (text_of (PList attachments)).
    rewrite (write_each_text _ _ (iterencode_text (PList attachments) 0)).
    reflexivity. }
  now rewrite E.
Qed.

(** C8, amended: for records whose strings can all be encoded as UTF-8,
    when no regular file stands where a directory is needed and the
    destination is no directory, the writer creates the missing parent
    directories, replaces whatever the destination held by the JSON
    text of the list and reports the count.  The text is an array with
    one item per line and two spaces of indentation per level, the keys
    of a record in the order [name], [url], [uploaded_at], [author],
    [size], [content_type]; [null], [true], [false] and the integers in
    decimal stand for themselves; a string stands between quotes, its
    text reads back as the string by the JSON escapes, and a string
    without quote, backslash and control character, the bytes of
    non-ASCII characters included, stands as it is.  When the platform
    answers with an empty array the run writes the text of the empty
    array and reports 0 entries. *)
Theorem write_json_overwrites (attachments : list pyval) (output_path : path)
    (w : world) :
  is_dir w output_path = false ->
  (forall q, In q (prefixes (parent output_path)) -> is_file w q = false) ->
  (exists w',
     write_json_text (map text_of attachments) output_path w = (Ok tt, w')
     /\ write_json attachments output_path w = (Ok tt, w')
     /\ read_file w' output_path = Some (dumps 0 (PList attachments))
     /\ (forall q, In q (prefixes (parent output_path)) -> is_dir w' q = true)
     /\ stdout w'
        = (stdout w
           ++ [("Wrote " ++ str_of_nat (List.length attachments)
                ++ " entries to " ++ str_of_path output_path)%string])%list)
  /\ dumps 0 (PList []) = "[]"
  /\ (attachments <> [] ->
      dumps 0 (PList attachments)
      = ("[" ++ newline
         ++ join ("," ++ newline)
                 (map (fun x => "  " ++ dumps 1 x) attachments)
         ++ newline ++ "]")%string)
  /\ (forall msg a,
        dumps 1 (spec_record msg a)
        = ("{" ++ newline
           ++ join ("," ++ newline)
                [ "    " ++ quoted "name" ++ ": "
                  ++ dumps 2 (field a "filename" (PStr "unknown"));
                  "    " ++ quoted "url" ++ ": "
                  ++ dumps 2 (field a "url" (PStr ""));
                  "    " ++ quoted "uploaded_at" ++ ": "
                  ++ dumps 2 (field msg "timestamp" (PStr ""));
                  "    " ++ quoted "author" ++ ": "
                  ++ dumps 2 (spec_author msg);
                  "    " ++ quoted "size" ++ ": "
                  ++ dumps 2 (field a "size" (PInt 0));
                  "    " ++ quoted "content_type" ++ ": "
                  ++ dumps 2 (field a "content_type" (PStr "")) ]
           ++ newline ++ "  }")%string)
  /\ (forall level,
        dumps level PNone = "null"
        /\ dumps level (PBool true) = "true"
        /\ dumps level (PBool false) = "false"
        /\ dumps level (PInt 0) = "0"
        /\ dumps level (PInt 1048576) = "1048576"
        /\ dumps level (PInt (-12)) = "-12"
        /\ forall z, dumps level (PInt z) = NilZero.string_of_int (Z.to_int z))
  /\ (forall level s,
        exists body,
          dumps level (PStr s) = quoted body
          /\ unescape body = Some s
          /\ (plain s = true -> body = s))
  /\ (forall c, (128 <= nat_of_ascii c)%nat ->
        plain_char c = true /\ escape_char c = String c EmptyString)
  /\ (forall script_dir w0 r,
        env_missing (assoc_get "DISCORD_BOT_TOKEN" (environ w0)) = false ->
        env_missing (assoc_get "DISCORD_CHANNEL_ID" (environ w0)) = false ->
        remote w0 (messages_request
                     (env_value (assoc_get "DISCORD_BOT_TOKEN" (environ w0)))
                     (env_value (assoc_get "DISCORD_CHANNEL_ID" (environ w0)))
                     100) = Ok r ->
        status_code r = 200 ->
        json r = Ok (PList []) ->
        is_dir w0 (output_path_of script_dir) = false ->
        (forall q, In q (prefixes (parent (output_path_of script_dir))) ->
                   is_file w0 q = false) ->
        exists w',
          main script_dir w0 = (Ok tt, w')
          /\ read_file w' (output_path_of script_dir) = Some "[]"
          /\ In "Extracted 0 attachments" (stdout w')
          /\ In ("Wrote 0 entries to "
                 ++ str_of_path (output_path_of script_dir))%string
                (stdout w')).
Proof.
  intros Hnd Hnf. repeat match goal with |- _ /\ _ => split end.
  - destruct (write_json_spec attachments output_path w Hnd Hnf)
      as (w' & E & Hread & Hdirs & _ & Hout & _).
    exists w'. rewrite write_json_text_encodable.
    repeat split; try assumption.
    now rewrite Hread, path_eqb_refl.
  - reflexivity.
  - intros H. now rewrite (dumps_list_lines 0 attachments H).
  - intros msg a. unfold spec_record.
    now rewrite dumps_dict_lines by discriminate.
  - intros level. repeat split.
  - intros level s. exists (escape_string s). split; [reflexivity|].
    split; [apply unescape_escape_string | apply escape_string_plain].
  - intros c H. split;
      [now apply plain_char_non_ascii | now apply escape_char_non_ascii].
  - intros script_dir w0 r Ht Hc Hr Hs Hj Hd Hf.
    destruct (main_success script_dir w0 r [] [] Ht Hc Hr Hs Hj eq_refl
                eq_refl Hd Hf) as (w' & E & Hread & Hout & _).
    exists w'. repeat split; try assumption.
    + rewrite Hout. apply in_or_app. right. do 5 right. now left.
    + rewrite Hout. apply in_or_app. right. do 6 right. now left.
Qed.

Lemma write_json_overwrites_witness :
  exists w',
    write_json [record_at "2024-06-01T12:00:00Z"] ["repo"; "docs"; "files.json"]
      (world_answering (mkResponse 200 "[]" (Ok (PList []))))
    = (Ok tt, w')
    /\ read_file w' ["repo"; "docs"; "files.json"]
       = Some (dumps 0 (PList [record_at "2024-06-01T12:00:00Z"])).
Proof.
  destruct (write_json_overwrites [record_at "2024-06-01T12:00:00Z"]
              ["repo"; "docs"; "files.json"]
              (world_answering (mkResponse 200 "[]" (Ok (PList [])))))
    as ((w' & _ & E & Hread & _) & _).
  - reflexivity.
  - intros q [<-|[<-|[]]]; reflexivity.
  - exists w'. split; assumption.
Defined.

(** C8 as stated, for every record list, fails.  A record whose name
    holds a lone surrogate cannot be encoded: the destination, which
    held the array of the previous run, is emptied, receives the text
    up to that name and no more, [UnicodeEncodeError] leaves the writer
    and no count is reported.  And where the parent of the destination
    is a regular file no directory can be created: the writer raises
    [FileExistsError] and writes nothing. *)
Lemma write_json_unencodable_text :
  let records :=
    [TDict [(Utf8 "name", TStr Surrogates);
            (Utf8 "url", TStr (Utf8 "https://cdn.example/f"));
            (Utf8 "uploaded_at", TStr (Utf8 "2024-06-01T12:00:00Z"));
            (Utf8 "author", TStr (Utf8 "ann"));
            (Utf8 "size", TInt 12);
            (Utf8 "content_type", TStr (Utf8 "text/plain"))]] in
  let w := world_answering (mkResponse 200 "[]" (Ok (PList []))) in
  let blocked :=
    mkWorld [] [] (fun _ => Raise RequestException) []
            [["repo"]] [(["repo"; "docs"], "notes")] in
  read_file w ["repo"; "docs"; "files.json"] = Some "[]"
  /\ fst (write_json_text records ["repo"; "docs"; "files.json"] w)
     = Raise UnicodeEncodeError
  /\ read_file (snd (write_json_text records ["repo"; "docs"; "files.json"] w))
               ["repo"; "docs"; "files.json"]
     = Some ("[" ++ newline ++ "  {" ++ newline ++ "    " ++ quoted "name"
             ++ ": ")%string
  /\ stdout (snd (write_json_text records ["repo"; "docs"; "files.json"] w)) = []
  /\ fst (write_json [record_at "2024-06-01T12:00:00Z"]
            ["repo"; "docs"; "files.json"] blocked)
     = Raise FileExistsError
  /\ read_file (snd (write_json [record_at "2024-06-01T12:00:00Z"]
                       ["repo"; "docs"; "files.json"] blocked))
               ["repo"; "docs"; "files.json"]
     = None.
Proof.
  cbv zeta. repeat split; vm_compute; reflexivity.
Qed.

(* ================================================================== *)
(** * The spellings of a timestamp: claim C2 *)

Lemma digit_cases (k : Z) :
  0 <= k <= 9 ->
  k = 0 \/ k = 1 \/ k = 2 \/ k = 3 \/ k = 4 \/ k = 5 \/ k = 6 \/ k = 7
  \/ k = 8 \/ k = 9.
Proof. lia. Qed.

Lemma digit_val_char (k : Z) :
  0 <= k <= 9 -> digit_val (digit_char k) = Some k.
Proof.
  intros H. destruct (digit_cases k H) as [E|[E|[E|[E|[E|[E|[E|[E|[E|E]]]]]]]]];
    subst k; reflexivity.
Qed.

Lemma digit_char_no_sign (k : Z) :
  0 <= k <= 9 ->
  ((digit_char k =? "+") || (digit_char k =? "-"))%char = false.
Proof.
  intros H. destruct (digit_cases k H) as [E|[E|[E|[E|[E|[E|[E|[E|[E|E]]]]]]]]];
    subst k; reflexivity.
Qed.

Lemma parse_digits_from_char (acc k : Z) (s : string) :
  0 <= k <= 9 ->
  parse_digits_from acc (String (digit_char k) s)
  = parse_digits_from (acc * 10 + k) s.
Proof.
  intros H. cbn [parse_digits_from]. now rewrite digit_val_char.
Qed.

Ltac divlia := Z.div_mod_to_equations; lia.

Lemma two_digits_parse (n : Z) :
  0 <= n <= 99 -> parse_digits (two_digits n) = Some n.
Proof.
  intros H. unfold two_digits, parse_digits.
  rewrite !parse_digits_from_char by divlia.
  cbn [parse_digits_from]. f_equal. divlia.
Qed.

Lemma four_digits_parse (n : Z) :
  0 <= n <= 9999 -> parse_digits (four_digits n) = Some n.
Proof.
  intros H. unfold four_digits, two_digits, parse_digits. cbn [append].
  rewrite !parse_digits_from_char by divlia.
  cbn [parse_digits_from]. f_equal. divlia.
Qed.

Lemma six_digits_parse (n : Z) :
  0 <= n <= 999999 -> parse_digits (six_digits n) = Some n.
Proof.
  intros H. unfold six_digits, two_digits, parse_digits. cbn [append].
  rewrite !parse_digits_from_char by divlia.
  cbn [parse_digits_from]. f_equal. divlia.
Qed.

Lemma digit_char_not_Z (k : Z) :
  0 <= k <= 9 -> (digit_char k =? "Z")%char = false.
Proof.
  intros H. destruct (digit_cases k H) as [E|[E|[E|[E|[E|[E|[E|[E|[E|E]]]]]]]]];
    subst k; reflexivity.
Qed.

Lemma find_sign_skip (c : ascii) (s : string) :
  ((c =? "+") || (c =? "-"))%char = false ->
  find_sign (String c s)
  = match find_sign s with
    | Some (n, sg) => Some (S n, sg)
    | None => None
    end.
Proof. intros H. cbn [find_sign]. now rewrite H. Qed.

Lemma str_replace_skip (c x : ascii) (new s : string) :
  (x =? c)%char = false ->
  str_replace c new (String x s) = String x (str_replace c new s).
Proof. intros H. cbn [str_replace]. now rewrite H. Qed.

Lemma str_replace_app (c : ascii) (new a b : string) :
  str_replace c new (a ++ b) = str_replace c new a ++ str_replace c new b.
Proof.
  induction a as [|x a IH]; [reflexivity|].
  cbn [append str_replace]. rewrite IH.
  destruct (x =? c)%char; [now rewrite str_app_assoc | reflexivity].
Qed.

Section IsoSpelling.
Variables y mo d h mi s us : Z.
Hypothesis Hy : 0 <= y <= 9999.
Hypothesis Hmo : 0 <= mo <= 99.
Hypothesis Hd : 0 <= d <= 99.
Hypothesis Hh : 0 <= h <= 99.
Hypothesis Hmi : 0 <= mi <= 99.
Hypothesis Hs : 0 <= s <= 99.
Hypothesis Hus : 0 <= us <= 999999.

Let date : string :=
  four_digits y ++ "-" ++ two_digits mo ++ "-" ++ two_digits d.
Let time_s : string :=
  two_digits h ++ ":" ++ two_digits mi ++ ":" ++ two_digits s.
Let time_us : string := time_s ++ "." ++ six_digits us.

Lemma parse_date_iso : parse_isoformat_date date = Some (y, mo, d).
Proof.
  unfold parse_isoformat_date.
  change (slen date) with 10.
  change (substring 0 4 date) with (four_digits y).
  change (substring 5 2 date) with (two_digits mo).
  change (substring 8 2 date) with (two_digits d).
  change (substring 4 1 date) with "-".
  change (substring 7 1 date) with "-".
  rewrite four_digits_parse, !two_digits_parse by lia. reflexivity.
Qed.

Lemma parse_time_seconds : parse_hh_mm_ss_ff time_s = Some (h, mi, s, 0).
Proof.
  unfold parse_hh_mm_ss_ff.
  change (slen time_s) with 8.
  change (substring 0 2 time_s) with (two_digits h).
  change (substring 3 2 time_s) with (two_digits mi).
  change (substring 6 2 time_s) with (two_digits s).
  change (substring 2 1 time_s) with ":".
  change (substring 5 1 time_s) with ":".
  rewrite !two_digits_parse by lia. reflexivity.
Qed.

Lemma parse_time_micros : parse_hh_mm_ss_ff time_us = Some (h, mi, s, us).
Proof.
  unfold parse_hh_mm_ss_ff.
  change (slen time_us) with 15.
  change (substring 0 2 time_us) with (two_digits h).
  change (substring 3 2 time_us) with (two_digits mi).
  change (substring 6 2 time_us) with (two_digits s).
  change (substring 2 1 time_us) with ":".
  change (substring 5 1 time_us) with ":".
  change (substring 8 1 time_us) with ".".
  change (drop_str 9 time_us) with (six_digits us).
  change (slen (six_digits us)) with 6.
  rewrite !two_digits_parse by lia. cbn [obind Z.eqb Pos.eqb negb String.eqb
    Ascii.eqb Bool.eqb andb].
  rewrite six_digits_parse by lia. reflexivity.
Qed.

Lemma find_sign_seconds (rest : string) :
  find_sign (time_s ++ String "+" rest) = Some (8%nat, "+"%char).
Proof.
  unfold time_s, two_digits. cbn [append].
  rewrite !find_sign_skip
    by first [reflexivity | apply digit_char_no_sign; divlia].
  reflexivity.
Qed.

Lemma find_sign_micros (rest : string) :
  find_sign (time_us ++ String "+" rest) = Some (15%nat, "+"%char).
Proof.
  unfold time_us, time_s, six_digits, two_digits. cbn [append].
  rewrite !find_sign_skip
    by first [reflexivity | apply digit_char_no_sign; divlia].
  reflexivity.
Qed.

Lemma parse_isoformat_time_seconds :
  parse_isoformat_time (time_s ++ "+00:00") = Some (h, mi, s, 0, Some 0).
Proof.
  unfold parse_isoformat_time. rewrite find_sign_seconds.
  change (substring 0 8 (time_s ++ "+00:00")) with time_s.
  change (drop_str 9 (time_s ++ "+00:00")) with "00:00".
  rewrite parse_time_seconds. reflexivity.
Qed.

Lemma parse_isoformat_time_micros :
  parse_isoformat_time (time_us ++ "+00:00") = Some (h, mi, s, us, Some 0).
Proof.
  unfold parse_isoformat_time. rewrite find_sign_micros.
  change (substring 0 15 (time_us ++ "+00:00")) with time_us.
  change (drop_str 16 (time_us ++ "+00:00")) with "00:00".
  rewrite parse_time_micros. reflexivity.
Qed.

Lemma fromisoformat_seconds :
  fromisoformat (date ++ "T" ++ time_s ++ "+00:00")
  = datetime_new y mo d h mi s 0 (Some 0).
Proof.
  unfold fromisoformat.
  change (substring 0 10 (date ++ "T" ++ time_s ++ "+00:00")) with date.
  change (slen (date ++ "T" ++ time_s ++ "+00:00")) with 25.
  change (drop_str (10 + separator_width (date ++ "T" ++ time_s ++ "+00:00"))
            (date ++ "T" ++ time_s ++ "+00:00"))
    with (time_s ++ "+00:00").
  rewrite parse_date_iso, parse_isoformat_time_seconds. reflexivity.
Qed.

Lemma fromisoformat_micros :
  fromisoformat (date ++ "T" ++ time_us ++ "+00:00")
  = datetime_new y mo d h mi s us (Some 0).
Proof.
  unfold fromisoformat.
  change (substring 0 10 (date ++ "T" ++ time_us ++ "+00:00")) with date.
  change (slen (date ++ "T" ++ time_us ++ "+00:00")) with 32.
  change (drop_str (10 + separator_width (date ++ "T" ++ time_us ++ "+00:00"))
            (date ++ "T" ++ time_us ++ "+00:00"))
    with (time_us ++ "+00:00").
  rewrite parse_date_iso, parse_isoformat_time_micros. reflexivity.
Qed.

Lemma str_replace_iso :
  str_replace "Z" "+00:00" (date ++ "T" ++ time_us) = date ++ "T" ++ time_us
  /\ str_replace "Z" "+00:00" (date ++ "T" ++ time_s) = date ++ "T" ++ time_s.
Proof.
  unfold date, time_us, time_s, four_digits, six_digits, two_digits.
  cbn [append].
  split;
    rewrite !str_replace_skip
      by first [reflexivity | apply digit_char_not_Z; divlia];
    reflexivity.
Qed.

End IsoSpelling.

Lemma parse_timestamp_record_at (ts : string) :
  ts <> "" ->
  parse_timestamp (record_at ts)
  = try_value_type (fromisoformat (str_replace "Z" "+00:00" ts))
                   (Ok datetime_min).
Proof.
  intros H. unfold parse_timestamp.
  change (py_get (record_at ts) "uploaded_at" (PStr "")) with (Ok (PStr ts)).
  cbn [rbind py_truthy].
  destruct ts as [|c ts]; [contradiction|].
  cbn [String.eqb negb py_contains_char rbind].
  destruct (str_has_char "." (String c ts)); reflexivity.
Qed.

Lemma in_range_spec (lo x hi : Z) :
  in_range lo x hi = true <-> lo <= x <= hi.
Proof.
  unfold in_range. rewrite andb_true_iff, !Z.leb_le. tauto.
Qed.

Lemma days_in_month_le (y m : Z) : days_in_month y m <= 31.
Proof.
  unfold days_in_month.
  destruct (m =? 2); [destruct (is_leap y); lia|].
  destruct ((m =? 4) || (m =? 6) || (m =? 9) || (m =? 11)); lia.
Qed.

(** What the constructor accepts is within the ranges of the fields. *)
Lemma datetime_new_ranges (y m d hh mm ss us : Z) (tz : option Z) (t : datetime) :
  datetime_new y m d hh mm ss us tz = Ok t ->
  t = mkDatetime y m d hh mm ss us tz
  /\ 1 <= y <= 9999 /\ 1 <= m <= 12 /\ 1 <= d <= 31
  /\ 0 <= hh <= 23 /\ 0 <= mm <= 59 /\ 0 <= ss <= 59 /\ 0 <= us <= 999999.
Proof.
  unfold datetime_new.
  destruct (in_range 1 y 9999) eqn:E1; [|discriminate].
  destruct (in_range 1 m 12) eqn:E2; [|discriminate].
  destruct (in_range 1 d (days_in_month y m)) eqn:E3; [|discriminate].
  destruct (in_range 0 hh 23) eqn:E4; [|discriminate].
  destruct (in_range 0 mm 59) eqn:E5; [|discriminate].
  destruct (in_range 0 ss 59) eqn:E6; [|discriminate].
  destruct (in_range 0 us 999999) eqn:E7; [|discriminate].
  cbn [andb]. destruct (match tz with Some _ => _ | None => _ end);
    [|discriminate].
  intros E. inversion E.
  apply in_range_spec in E1, E2, E3, E4, E5, E6, E7.
  pose proof (days_in_month_le y m). repeat split; lia.
Qed.

(** C2: for every UTC instant the constructor accepts, the spelling
    with fractional seconds, the spelling without them (for a whole
    second) and the spellings with a trailing Z in place of the offset
    +00:00 all get that same instant as their key, which compares as
    equal to itself; a trailing Z is read as +00:00 in every string; and
    of the messages of January (with a fraction and an offset) and of
    June (with a Z), the record of June comes out first. *)
Theorem timestamp_spellings_agree (t : datetime) :
  datetime_new (year t) (month t) (day t) (hour t) (minute t) (second t)
               (microsecond t) (Some 0) = Ok t ->
  parse_timestamp (record_at (iso_micros t ++ "+00:00")) = Ok t
  /\ parse_timestamp (record_at (iso_micros t ++ "Z")) = Ok t
  /\ (microsecond t = 0 ->
      parse_timestamp (record_at (iso_seconds t ++ "+00:00")) = Ok t
      /\ parse_timestamp (record_at (iso_seconds t ++ "Z")) = Ok t)
  /\ datetime_lt t t = Ok false
  /\ (forall s, parse_timestamp (record_at (s ++ "Z"))
                = parse_timestamp (record_at (s ++ "+00:00")))
  /\ rbind (extract_loop [msg_january; msg_june] []) sort_attachments
     = Ok (spec_records msg_june ++ spec_records msg_january)%list.
Proof.
  intros Hnew.
  destruct (datetime_new_ranges _ _ _ _ _ _ _ _ _ Hnew)
    as (Et & Hy & Hmo & Hd & Hh & Hmi & Hs & Hus).
  assert (Hns : forall x, iso_seconds t ++ x <> "").
  { intros x. unfold iso_seconds, four_digits, two_digits.
    cbn [append]. discriminate. }
  assert (Hnu : forall x, iso_micros t ++ x <> "").
  { intros x. unfold iso_micros, iso_seconds, four_digits, two_digits.
    cbn [append]. discriminate. }
  assert (Hrep : forall a, str_replace "Z" "+00:00" (a ++ "Z")
                           = str_replace "Z" "+00:00" (a ++ "+00:00")).
  { intros a. now rewrite !str_replace_app. }
  destruct (str_replace_iso (year t) (month t) (day t) (hour t) (minute t)
              (second t) (microsecond t)) as [Rus Rs]; try lia.
  assert (Pus : parse_timestamp (record_at (iso_micros t ++ "+00:00")) = Ok t).
  { rewrite parse_timestamp_record_at by apply Hnu.
    rewrite str_replace_app.
    unfold iso_micros, iso_seconds. rewrite ?str_app_assoc.
    rewrite ?str_app_assoc in Rus. rewrite Rus.
    change (str_replace "Z" "+00:00" "+00:00") with "+00:00".
    rewrite ?str_app_assoc.
    pose proof (fromisoformat_micros (year t) (month t) (day t) (hour t)
                  (minute t) (second t) (microsecond t)) as F.
    rewrite ?str_app_assoc in F. rewrite F by lia.
    rewrite Hnew. reflexivity. }
  assert (Ps : microsecond t = 0 ->
               parse_timestamp (record_at (iso_seconds t ++ "+00:00")) = Ok t).
  { intros H0. rewrite parse_timestamp_record_at by apply Hns.
    rewrite str_replace_app.
    unfold iso_seconds. rewrite ?str_app_assoc.
    rewrite ?str_app_assoc in Rs. rewrite Rs.
    change (str_replace "Z" "+00:00" "+00:00") with "+00:00".
    rewrite ?str_app_assoc.
    pose proof (fromisoformat_seconds (year t) (month t) (day t) (hour t)
                  (minute t) (second t)) as F.
    rewrite ?str_app_assoc in F. rewrite F by lia.
    pose proof Hnew as Hn0. rewrite H0 in Hn0. rewrite Hn0. reflexivity. }
  assert (PZ : forall a, a ++ "Z" <> "" -> a ++ "+00:00" <> "" ->
               parse_timestamp (record_at (a ++ "Z"))
               = parse_timestamp (record_at (a ++ "+00:00"))).
  { intros a H1 H2. rewrite !parse_timestamp_record_at by assumption.
    now rewrite Hrep. }
  repeat match goal with |- _ /\ _ => split end.
  - exact Pus.
  - rewrite PZ; [exact Pus | apply Hnu | apply Hnu].
  - intros H0. split; [exact (Ps H0)|].
    rewrite PZ; [exact (Ps H0) | apply Hns | apply Hns].
  - rewrite datetime_lt_same_kind by reflexivity. now rewrite Z.ltb_irrefl.
  - intros a. apply PZ; destruct a; discriminate.
  - vm_compute. reflexivity.
Qed.

Lemma timestamp_spellings_agree_witness :
  parse_timestamp (record_at "2024-06-01T12:00:00.000000+00:00")
  = Ok (mkDatetime 2024 6 1 12 0 0 0 (Some 0))
  /\ parse_timestamp (record_at "2024-06-01T12:00:00Z")
     = Ok (mkDatetime 2024 6 1 12 0 0 0 (Some 0)).
Proof.
  destruct (timestamp_spellings_agree (mkDatetime 2024 6 1 12 0 0 0 (Some 0))
              eq_refl) as (H1 & _ & H2 & _).
  split; [exact H1 | exact (proj2 (H2 eq_refl))].
Defined.

(* ================================================================== *)
(** * Further properties of the sorter *)

Lemma sort_attachments_same_kind_witness :
  exists out,
    sort_attachments
      [record_at "2024-01-01T00:00:00+00:00"; record_at "2024-06-01T12:00:00Z";
       record_at "2024-01-01T01:00:00+01:00"] = Ok out
    /\ List.length out = 3%nat.
Proof.
  destruct (sort_attachments_same_kind true
              [record_at "2024-01-01T00:00:00+00:00";
               record_at "2024-06-01T12:00:00Z";
               record_at "2024-01-01T01:00:00+01:00"])
    as (out & E & P & _).
  - intros x [<-|[<-|[<-|[]]]]; eexists; split; vm_compute; reflexivity.
  - exists out. split; [exact E|].
    now rewrite <- (Permutation_length P).
Defined.

Lemma sort_attachments_mixed_witness :
  sort_attachments
    [record_at ""; record_at "2024-03-01T08:30:00"; record_at "2024-06-01T12:00:00Z"]
  = Raise TypeError.
Proof.
  apply (sort_attachments_mixed _ (record_at "") (record_at "2024-06-01T12:00:00Z")).
  - intros z [<-|[<-|[<-|[]]]]; eexists; vm_compute; reflexivity.
  - now left.
  - right. right. now left.
  - vm_compute. discriminate.
Defined.

(* ================================================================== *)
(** * Further properties of the extractor *)

(** The keys of a record, in the order the dict holds them. *)
Definition record_keys (r : pyval) : list string :=
  match r with
  | PDict d => map fst d
  | _ => []
  end.

(** X3: a message whose [attachments] is present but falsy ([null],
    [false], [0], the empty string, the empty array or object) is
    skipped like one without the key: it adds nothing and raises
    nothing, whatever its other fields are. *)
Theorem extract_skips_falsy_attachments (d : list (string * pyval))
    (v : pyval) (rest attachments : list pyval) :
  dict_lookup "attachments" d = Some v ->
  py_truthy v = false ->
  extract_loop (PDict d :: rest) attachments = extract_loop rest attachments.
Proof.
  intros Hv Hf. cbn [extract_loop]. unfold py_get. rewrite Hv.
  cbn [rbind]. now rewrite Hf.
Qed.

Lemma extract_skips_falsy_attachments_witness :
  extract_loop [PDict [("attachments", PNone); ("author", PInt 7)]; msg_june] []
  = extract_loop [msg_june] [].
Proof.
  apply (extract_skips_falsy_attachments _ PNone); reflexivity.
Defined.




(** X5: on messages of the data model the extraction returns as many
    records as the messages hold attachments, and every record has
    exactly the keys [name], [url], [uploaded_at], [author], [size],
    [content_type], in this order. *)
Theorem extract_count_and_keys (msgs : list pyval) :
  forallb wf_message msgs = true ->
  exists records,
    extract_loop msgs [] = Ok records
    /\ List.length records = total_attachments msgs
    /\ Forall (fun r => record_keys r
                        = ["name"; "url"; "uploaded_at"; "author"; "size";
                           "content_type"]) records.
Proof.
  intros Hwf. exists (flat_map spec_records msgs). split; [|split].
  - now rewrite (extract_loop_wf msgs Hwf).
  - apply flat_map_spec_records_length.
  - apply Forall_forall. intros r Hr.
    apply in_flat_map in Hr as (msg & _ & Hr). unfold spec_records in Hr.
    destruct (field msg "attachments" PNone); try contradiction.
    apply in_map_iff in Hr as (a & <- & _). reflexivity.
Qed.

Lemma extract_count_and_keys_witness :
  exists records,
    extract_loop [msg_january; PDict []; msg_june] [] = Ok records
    /\ List.length records = 2%nat.
Proof.
  destruct (extract_count_and_keys [msg_january; PDict []; msg_june] eq_refl)
    as (records & E & L & _).
  exists records. split; [exact E | exact L].
Defined.

(* ================================================================== *)
(** * Further properties of the key function *)

Lemma datetime_new_raises (y m d hh mm ss us : Z) (tz : option Z) (e : exn) :
  datetime_new y m d hh mm ss us tz = Raise e -> e = ValueError.
Proof.
  unfold datetime_new. destruct (_ && _); [discriminate|].
  intros E. now inversion E.
Qed.

Lemma fromisoformat_raises (s : string) (e : exn) :
  fromisoformat s = Raise e -> e = ValueError.
Proof.
  unfold fromisoformat.
  destruct (parse_isoformat_date _) as [[[y m] d]|];
    [|intros E; now inversion E].
  destruct (slen s =? 10); [apply datetime_new_raises|].
  destruct (parse_isoformat_time _) as [[[[[hh mm] ss] us] tz]|];
    [apply datetime_new_raises | intros E; now inversion E].
Qed.

(** X6: on a record whose [uploaded_at] is a string or is absent the
    key function never raises: an empty or absent timestamp and a
    string the parser refuses both give [datetime.min], any other
    string gives what the parser returns for it with every Z replaced
    by +00:00. *)
Theorem parse_timestamp_of_string (d : list (string * pyval)) (s : string) :
  field (PDict d) "uploaded_at" (PStr "") = PStr s ->
  parse_timestamp (PDict d)
  = Ok (if (s =? "")%string then datetime_min
        else match fromisoformat (str_replace "Z" "+00:00" s) with
             | Ok t => t
             | Raise _ => datetime_min
             end).
Proof.
  intros H. unfold parse_timestamp. rewrite py_get_dict, H.
  cbn [rbind py_truthy].
  destruct (s =? "")%string; [reflexivity|].
  cbn [negb py_contains_char rbind].
  assert (E : forall b : bool,
            (if b then parse_with_microseconds (PStr s)
             else parse_without_microseconds (PStr s))
            = fromisoformat (str_replace "Z" "+00:00" s)).
  { intros []; reflexivity. }
  rewrite E.
  destruct (fromisoformat (str_replace "Z" "+00:00" s)) as [t|e] eqn:Ef;
    [reflexivity|].
  apply fromisoformat_raises in Ef. subst e. reflexivity.
Qed.

Lemma parse_timestamp_of_string_witness :
  parse_timestamp (record_at "yesterday, around noon") = Ok datetime_min.
Proof.
  exact (parse_timestamp_of_string
           [("name", PStr "file.bin");
            ("url", PStr "https://cdn.example/file.bin");
            ("uploaded_at", PStr "yesterday, around noon");
            ("author", PStr "Unknown");
            ("size", PInt 0);
            ("content_type", PStr "")]
           "yesterday, around noon" eq_refl).
Defined.

(** X7: the replacement of the UTC marker is not limited to a trailing
    one: no Z is left anywhere in the string handed to the parser. *)
Theorem replace_leaves_no_Z (s : string) :
  str_has_char "Z" (str_replace "Z" "+00:00" s) = false.
Proof.
  induction s as [|c s IH]; [reflexivity|].
  cbn [str_replace]. destruct (c =? "Z")%char eqn:E.
  - cbn [append str_has_char Ascii.eqb Bool.eqb andb orb]. exact IH.
  - cbn [str_has_char]. now rewrite E, IH.
Qed.

Lemma fold_left_days_nonneg (y : Z) (ks : list nat) (acc : Z) :
  0 <= acc ->
  0 <= fold_left (fun a k => a + days_in_month y (Z.of_nat k)) ks acc.
Proof.
  revert acc. induction ks as [|k ks IH]; intros acc H; [exact H|].
  cbn [fold_left]. apply IH.
  assert (28 <= days_in_month y (Z.of_nat k)).
  { unfold days_in_month.
    destruct (Z.of_nat k =? 2); [destruct (is_leap y); lia|].
    destruct (_ || _); lia. }
  lia.
Qed.

Lemma wall_micros_nonneg (y m d hh mm ss us : Z) (tz : option Z) (t : datetime) :
  datetime_new y m d hh mm ss us tz = Ok t -> 0 <= wall_micros t.
Proof.
  intros H. apply datetime_new_ranges in H
    as (-> & Hy & Hm & Hd & Hh & Hmi & Hs & Hus).
  unfold wall_micros. cbn [year month day hour minute second microsecond].
  assert (Ho : 1 <= ymd2ord y m d).
  { unfold ymd2ord, days_before_year, days_before_month.
    pose proof (fold_left_days_nonneg y (seq 1 (Z.to_nat (m - 1))) 0
                  (Z.le_refl 0)).
    assert (0 <= (y - 1) * 365 + (y - 1) / 4 - (y - 1) / 100 + (y - 1) / 400)
      by divlia.
    cbv zeta. lia. }
  lia.
Qed.

(** X8: [datetime.min] is not above any naive datetime the constructor
    accepts, so among naive keys the records without a usable timestamp
    are the oldest; against an aware datetime the comparison raises
    [TypeError] in both directions. *)
Theorem datetime_min_is_least_naive (y m d hh mm ss us : Z) (tz : option Z)
    (t : datetime) :
  datetime_new y m d hh mm ss us tz = Ok t ->
  (tz = None -> datetime_lt t datetime_min = Ok false)
  /\ (tz <> None ->
      datetime_lt t datetime_min = Raise TypeError
      /\ datetime_lt datetime_min t = Raise TypeError).
Proof.
  intros H. pose proof (wall_micros_nonneg _ _ _ _ _ _ _ _ _ H) as Hw.
  apply datetime_new_ranges in H as (Et & _). split.
  - intros ->. subst t. unfold datetime_lt. cbn [tzinfo datetime_min].
    f_equal. apply Z.ltb_ge.
    change (wall_micros (mkDatetime 1 1 1 0 0 0 0 None)) with 0. exact Hw.
  - intros Hz. destruct tz as [off|]; [|contradiction]. subst t.
    split; reflexivity.
Qed.

Lemma datetime_min_is_least_naive_witness :
  datetime_lt (mkDatetime 2024 6 1 12 0 0 0 None) datetime_min = Ok false
  /\ datetime_lt datetime_min (mkDatetime 2024 6 1 12 0 0 0 (Some 0))
     = Raise TypeError.
Proof.
  split.
  - apply (proj1 (datetime_min_is_least_naive 2024 6 1 12 0 0 0 None _ eq_refl)).
    reflexivity.
  - apply (proj2 (datetime_min_is_least_naive 2024 6 1 12 0 0 0 (Some 0) _
                    eq_refl)).
    discriminate.
Defined.

(* ================================================================== *)
(** * Further properties of the loader, the fetcher and the run *)

(** X9: a failure of the transport (a timeout, a refused connection)
    is not handled: the exception leaves the fetcher after the request
    went out, only the line announcing the fetch has been printed, and
    the run ends with exit status 1 and the files as they were. *)
Theorem fetch_transport_failure (token channel_id : string) (limit : Z)
    (w : world) (e : exn) :
  remote w (messages_request token channel_id limit) = Raise e ->
  fetch_messages token channel_id limit w
  = (Raise e,
     requested (printed w [fetching_line channel_id limit])
               (messages_request token channel_id limit))
  /\ (forall script_dir,
        limit = 100 ->
        env_missing (assoc_get "DISCORD_BOT_TOKEN" (environ w)) = false ->
        env_missing (assoc_get "DISCORD_CHANNEL_ID" (environ w)) = false ->
        token = env_value (assoc_get "DISCORD_BOT_TOKEN" (environ w)) ->
        channel_id = env_value (assoc_get "DISCORD_CHANNEL_ID" (environ w)) ->
        fst (main script_dir w) = Raise e
        /\ files (snd (main script_dir w)) = files w).
Proof.
  intros Hr.
  assert (E : forall w0,
            remote w0 (messages_request token channel_id limit) = Raise e ->
            fetch_messages token channel_id limit w0
            = (Raise e,
               requested (printed w0 [fetching_line channel_id limit])
                         (messages_request token channel_id limit))).
  { intros w0 H0.
    unfold fetch_messages, bind, print, requests_get.
    cbn [environ stdout remote sent dirs files].
    fold (fetching_line channel_id limit).
    fold (messages_request token channel_id limit).
    rewrite H0. reflexivity. }
  split; [now apply E|].
  intros script_dir -> Ht Hc Etok Ech.
  assert (Hf : fst (fetch_messages token channel_id 100
                      (printed w [banner; "Discord File Sync Script"; banner]))
               = Raise e) by (rewrite E; [reflexivity | exact Hr]).
  rewrite Etok, Ech in Hf.
  destruct (main_fetch_raises script_dir w e Ht Hc Hf) as (Hm & _ & Hfl).
  split; assumption.
Qed.

Lemma fetch_transport_failure_witness :
  fst (main ["repo"]
         (mkWorld [("DISCORD_BOT_TOKEN", "secret"); ("DISCORD_CHANNEL_ID", "42")]
                  [] (fun _ => Raise RequestException) [] [] []))
  = Raise RequestException.
Proof.
  apply (proj2 (fetch_transport_failure "secret" "42" 100
                  (mkWorld [("DISCORD_BOT_TOKEN", "secret");
                            ("DISCORD_CHANNEL_ID", "42")]
                           [] (fun _ => Raise RequestException) [] [] [])
                  RequestException eq_refl) ["repo"]);
    reflexivity.
Defined.

(** X10: an answer 200 whose body is not JSON, or is JSON without a
    length (a number, a boolean, null), is not handled either: the
    exception of the decoding, or the [TypeError] of [len], leaves the
    fetcher and the success line is not printed. *)
Theorem fetch_unusable_body (token channel_id : string) (limit : Z)
    (w : world) (r : response) :
  remote w (messages_request token channel_id limit) = Ok r ->
  status_code r = 200 ->
  let w1 := requested (printed w [fetching_line channel_id limit])
                      (messages_request token channel_id limit) in
  (forall e, json r = Raise e ->
     fetch_messages token channel_id limit w = (Raise e, w1))
  /\ (forall v, json r = Ok v -> is_dict v = false ->
        (forall l, v <> PList l) -> (forall s, v <> PStr s) ->
        fetch_messages token channel_id limit w = (Raise TypeError, w1)).
Proof.
  intros Hr Hs w1.
  pose proof (fetch_messages_answer token channel_id limit w r Hr) as E.
  cbv zeta in E. fold w1 in E. rewrite Hs in E. cbn [Z.eqb Pos.eqb] in E.
  split.
  - intros e Hj. now rewrite E, Hj.
  - intros v Hj Hd Hl Hstr. rewrite E, Hj.
    destruct v as [| | |s|l|d]; try reflexivity.
    + now elim (Hstr s).
    + now elim (Hl l).
    + discriminate.
Qed.

Lemma fetch_unusable_body_witness :
  fst (fetch_messages "secret" "42" 100
         (world_answering (mkResponse 200 "<html>" (Raise ValueError))))
  = Raise ValueError.
Proof.
  pose proof (fetch_unusable_body "secret" "42" 100
                (world_answering (mkResponse 200 "<html>" (Raise ValueError)))
                (mkResponse 200 "<html>" (Raise ValueError)) eq_refl eq_refl) as H.
  cbv zeta in H. now rewrite (proj1 H ValueError eq_refl).
Defined.

(** X11: whatever the platform answers and however the fetch ends, the
    fetcher issues exactly one request: a GET of the messages of the
    channel under the API v10, authorised as [Bot] followed by the
    token, with a timeout of 30 seconds; and it changes neither the
    environment nor any directory or file. *)
Theorem fetch_messages_one_request (token channel_id : string) (limit : Z)
    (w : world) :
  let w' := snd (fetch_messages token channel_id limit w) in
  exists r,
    sent w' = (sent w ++ [r])%list
    /\ req_url r
       = "https://discord.com/api/v10/channels/" ++ channel_id ++ "/messages"
    /\ assoc_get "Authorization" (req_headers r) = Some ("Bot " ++ token)
    /\ req_timeout r = 30
    /\ dirs w' = dirs w /\ files w' = files w /\ environ w' = environ w.
Proof.
  cbv zeta.
  destruct (fetch_messages_effects token channel_id limit w)
    as (Hs & Hd & Hf & He).
  exists (messages_request token channel_id limit).
  repeat match goal with |- _ /\ _ => split end; try assumption; reflexivity.
Qed.

(** X12: a complete run.  With both environment values set, an answer
    200 carrying messages of the data model, keys the sorter can
    compare and nothing in the way of the output file, the run ends
    normally, has sent one request, has printed its ten lines in order
    and has left in the output file the text of the sorted records. *)
Theorem run_complete (script_dir : path) (w : world) (r : response)
    (msgs out : list pyval) :
  env_missing (assoc_get "DISCORD_BOT_TOKEN" (environ w)) = false ->
  env_missing (assoc_get "DISCORD_CHANNEL_ID" (environ w)) = false ->
  remote w (messages_request
              (env_value (assoc_get "DISCORD_BOT_TOKEN" (environ w)))
              (env_value (assoc_get "DISCORD_CHANNEL_ID" (environ w))) 100)
  = Ok r ->
  status_code r = 200 ->
  json r = Ok (PList msgs) ->
  forallb wf_message msgs = true ->
  sort_attachments (flat_map spec_records msgs) = Ok out ->
  is_dir w (output_path_of script_dir) = false ->
  (forall q, In q (prefixes (parent (output_path_of script_dir))) ->
             is_file w q = false) ->
  exists w',
    main script_dir w = (Ok tt, w')
    /\ exit_status (fst (main script_dir w)) = 0
    /\ read_file w' (output_path_of script_dir) = Some (dumps 0 (PList out))
    /\ List.length (sent w') = S (List.length (sent w))
    /\ stdout w'
       = (stdout w
          ++ [banner; "Discord File Sync Script"; banner;
              fetching_line
                (env_value (assoc_get "DISCORD_CHANNEL_ID" (environ w))) 100;
              ("Successfully fetched " ++ str_of_nat (List.length msgs)
               ++ " messages")%string;
              ("Extracted " ++ str_of_nat (total_attachments msgs)
               ++ " attachments")%string;
              ("Wrote " ++ str_of_nat (List.length out) ++ " entries to "
               ++ str_of_path (output_path_of script_dir))%string;
              banner; "Sync complete!"; banner])%list.
Proof.
  intros Ht Hc Hr Hs Hj Hwf Hsort Hd Hf.
  destruct (main_success script_dir w r msgs out Ht Hc Hr Hs Hj Hwf Hsort Hd Hf)
    as (w' & E & Hread & Hout & Hsent).
  exists w'. rewrite E. repeat match goal with |- _ /\ _ => split end;
    try assumption; try reflexivity.
  rewrite Hsent, length_app. simpl. lia.
Qed.

Lemma run_complete_witness :
  exists w',
    main ["repo"]
      (world_answering (mkResponse 200 "" (Ok (PList [msg_january; msg_june]))))
    = (Ok tt, w')
    /\ read_file w' ["repo"; "docs"; "files.json"]
       = Some (dumps 0 (PList (spec_records msg_june ++ spec_records msg_january))).
Proof.
  destruct (run_complete ["repo"]
              (world_answering
                 (mkResponse 200 "" (Ok (PList [msg_january; msg_june]))))
              (mkResponse 200 "" (Ok (PList [msg_january; msg_june])))
              [msg_january; msg_june]
              (spec_records msg_june ++ spec_records msg_january)%list)
    as (w' & E & _ & Hread & _); try reflexivity.
  - intros q [<-|[<-|[]]]; reflexivity.
  - exists w'. split; [exact E | exact Hread].
Defined.

(** X13: the loader returns exactly when both values are set and not
    empty; it then returns the two values and prints nothing. *)
Theorem get_env_vars_returns_iff (w : world) :
  ((exists creds, fst (get_env_vars w) = Ok creds)
   <-> env_missing (assoc_get "DISCORD_BOT_TOKEN" (environ w)) = false
       /\ env_missing (assoc_get "DISCORD_CHANNEL_ID" (environ w)) = false)
  /\ (forall creds, fst (get_env_vars w) = Ok creds ->
        get_env_vars w = (Ok creds, w)
        /\ assoc_get "DISCORD_BOT_TOKEN" (environ w) = Some (fst creds)
        /\ assoc_get "DISCORD_CHANNEL_ID" (environ w) = Some (snd creds)).
Proof.
  destruct (env_missing (assoc_get "DISCORD_BOT_TOKEN" (environ w))) eqn:Ht.
  { rewrite (get_env_vars_token_missing w Ht). cbn [fst]. split.
    - split; [intros [c Hc]; discriminate | intros [H _]; discriminate].
    - intros c Hc. discriminate. }
  destruct (env_missing (assoc_get "DISCORD_CHANNEL_ID" (environ w))) eqn:Hc.
  { rewrite (get_env_vars_channel_missing w Ht Hc). cbn [fst]. split.
    - split; [intros [c H]; discriminate | intros [_ H]; discriminate].
    - intros c H. discriminate. }
  rewrite (get_env_vars_present w Ht Hc). cbn [fst]. split.
  - split; [auto | intros _; eauto].
  - intros c H. inversion H. subst c. cbn [fst snd].
    split; [reflexivity|].
    destruct (assoc_get "DISCORD_BOT_TOKEN" (environ w)); [|discriminate].
    destruct (assoc_get "DISCORD_CHANNEL_ID" (environ w)); [|discriminate].
    split; reflexivity.
Qed.

(* ================================================================== *)
(** * Further properties of the writer *)

Lemma prefixes_snoc (p : path) (a : string) :
  prefixes (p ++ [a])%list = (prefixes p ++ [(p ++ [a])%list])%list.
Proof.
  unfold prefixes. rewrite length_app. cbn [List.length].
  replace (List.length p + 1)%nat with (S (List.length p)) by lia.
  rewrite seq_S, map_app. cbn [map]. f_equal.
  - apply map_ext_in. intros n Hn. apply in_seq in Hn.
    rewrite firstn_app.
    replace (n - List.length p)%nat with 0%nat by lia.
    cbn [firstn]. now rewrite app_nil_r.
  - f_equal.
    replace (1 + List.length p)%nat with (List.length (p ++ [a])%list).
    + apply firstn_all.
    + rewrite length_app. simpl. lia.
Qed.

Lemma mkdir_each_app (target : path) (ps1 ps2 : list path) (w : world) :
  mkdir_each target (ps1 ++ ps2) w
  = match mkdir_each target ps1 w with
    | (Ok _, w1) => mkdir_each target ps2 w1
    | (Raise e, w1) => (Raise e, w1)
    end.
Proof.
  revert w. induction ps1 as [|q ps1 IH]; intros w; [reflexivity|].
  cbn [app mkdir_each].
  destruct (is_dir w q); [apply IH|].
  destruct (is_file w q); [reflexivity | apply IH].
Qed.

(** X14: the writer does not write where it cannot.  When the
    destination is a directory it raises [IsADirectoryError], and when
    the parent of the destination is a regular file it raises
    [FileExistsError]; in both cases no file has changed and the count
    is not reported. *)
Theorem write_json_blocked (attachments : list pyval) (output_path : path)
    (w : world) :
  (forall q, In q (prefixes (parent (parent output_path))) ->
             is_file w q = false) ->
  (is_dir w output_path = true ->
   is_file w (parent output_path) = false ->
   exists w',
     write_json attachments output_path w = (Raise IsADirectoryError, w')
     /\ files w' = files w /\ stdout w' = stdout w)
  /\ (parent output_path <> [] ->
      is_file w (parent output_path) = true ->
      is_dir w (parent output_path) = false ->
      exists w',
        write_json attachments output_path w = (Raise FileExistsError, w')
        /\ files w' = files w /\ stdout w' = stdout w).
Proof.
  intros Hpre. split.
  - intros Hd Hpf.
    destruct (mkdir_each_spec (parent output_path)
                (prefixes (parent output_path)) w)
      as (w1 & E & H1 & H2 & _ & _ & _ & _ & H7).
    { intros q Hq.
      destruct (parent output_path) as [|a0 p0] eqn:Ep; [destruct Hq|].
      assert (Hne : a0 :: p0 <> []) by discriminate.
      destruct (exists_last Hne) as (pp & a & Epp).
      rewrite Epp in Hq, Hpre, Hpf. unfold parent in Hpre at 1.
      rewrite removelast_last in Hpre.
      rewrite prefixes_snoc in Hq. apply in_app_or in Hq as [Hq|[<-|[]]].
      - now apply Hpre.
      - exact Hpf. }
    exists w1. unfold write_json, mkdir_parents, bind. rewrite E.
    unfold write_text.
    assert (Hd1 : is_dir w1 output_path = true) by (apply H7; now left).
    rewrite Hd1. repeat split; assumption.
  - intros Hne Hpf Hpd.
    destruct (exists_last Hne) as (pp & a & Epp).
    assert (Hpre' : forall q, In q (prefixes pp) -> is_file w q = false).
    { intros q Hq. apply Hpre. rewrite Epp. unfold parent at 1.
      now rewrite removelast_last. }
    destruct (mkdir_each_spec (parent output_path) (prefixes pp) w Hpre')
      as (w1 & E & H1 & H2 & _ & _ & _ & _ & H7).
    exists w1. unfold write_json, mkdir_parents, bind.
    rewrite Epp at 2. rewrite prefixes_snoc, mkdir_each_app, E.
    cbn [mkdir_each]. rewrite <- Epp.
    assert (Hd1 : is_dir w1 (parent output_path) = false).
    { destruct (is_dir w1 (parent output_path)) eqn:Ed; [|reflexivity].
      apply H7 in Ed as [Ed|Ed]; [congruence|].
      apply prefixes_length in Ed. rewrite Epp, length_app in Ed.
      simpl in Ed. lia. }
    assert (Hf1 : is_file w1 (parent output_path) = true).
    { unfold is_file. rewrite H1. exact Hpf. }
    rewrite Hd1, Hf1, path_eqb_refl. repeat split; assumption.
Qed.

Lemma write_json_blocked_witness :
  exists w',
    write_json [] ["repo"; "docs"; "files.json"]
      (mkWorld [] [] (fun _ => Raise RequestException) []
               [["repo"]] [(["repo"; "docs"], "notes")])
    = (Raise FileExistsError, w')
    /\ files w' = [(["repo"; "docs"], "notes")].
Proof.
  destruct (write_json_blocked [] ["repo"; "docs"; "files.json"]
              (mkWorld [] [] (fun _ => Raise RequestException) []
                       [["repo"]] [(["repo"; "docs"], "notes")]))
    as (_ & H).
  - intros q [<-|[]]. reflexivity.
  - destruct H as (w' & E & Hf & _); try reflexivity; try discriminate.
    exists w'. split; assumption.
Defined.

(** X15: at every nesting level a non-empty array or object is written
    with its bracket on a line, one item per line indented by two
    spaces per level below, the items separated by a comma at the end of
    the line, and the closing bracket at the indentation of the level;
    an object writes its keys in the order it holds them, each followed
    by a colon and a space. *)
Theorem dumps_layout (level : nat) :
  (forall l, l <> [] ->
     dumps level (PList l)
     = ("[" ++ newline
        ++ join ("," ++ newline)
                (map (fun x => spaces (2 * S level) ++ dumps (S level) x) l)
        ++ newline ++ spaces (2 * level) ++ "]")%string)
  /\ (forall d, d <> [] ->
        dumps level (PDict d)
        = ("{" ++ newline
           ++ join ("," ++ newline)
                   (map (fun kv => spaces (2 * S level) ++ json_string (fst kv)
                                   ++ ": " ++ dumps (S level) (snd kv)) d)
           ++ newline ++ spaces (2 * level) ++ "}")%string)
  /\ dumps level (PList []) = "[]" /\ dumps level (PDict []) = "{}".
Proof.
  repeat split.
  - intros l H. now apply dumps_list_lines.
  - intros d H. now apply dumps_dict_lines.
Qed.

Lemma list_ascii_app (a b : string) :
  list_ascii_of_string (a ++ b)
  = (list_ascii_of_string a ++ list_ascii_of_string b)%list.
Proof.
  induction a as [|c a IH]; [reflexivity|]. simpl. now rewrite IH.
Qed.

Lemma escape_char_printable (c : ascii) :
  forallb (fun x => Nat.leb 32 (nat_of_ascii x))
          (list_ascii_of_string (escape_char c)) = true.
Proof.
  destruct c as [[] [] [] [] [] [] [] []]; vm_compute; reflexivity.
Qed.

(** X16: the text of a string holds no raw control character: every
    byte below 32 (a line break, a tab, ...) is written as an escape,
    so every byte of the escaped text is at least 32; and a string
    without a quote, a backslash or a control character is written as
    it is. *)
Theorem escape_string_printable (s : string) :
  forallb (fun x => Nat.leb 32 (nat_of_ascii x))
          (list_ascii_of_string (escape_string s)) = true
  /\ (forallb (fun x => Nat.leb 32 (nat_of_ascii x)
                        && negb (Nat.eqb (nat_of_ascii x) 34)
                        && negb (Nat.eqb (nat_of_ascii x) 92))
              (list_ascii_of_string s) = true ->
      escape_string s = s).
Proof.
  split.
  - induction s as [|c s IH]; [reflexivity|].
    cbn [escape_string]. rewrite list_ascii_app, forallb_app, IH.
    now rewrite escape_char_printable.
  - induction s as [|c s IH]; [reflexivity|].
    cbn [list_ascii_of_string forallb escape_string].
    intros H. apply andb_true_iff in H as [Hc Hs].
    rewrite (IH Hs).
    apply andb_true_iff in Hc as [Hc H92].
    apply andb_true_iff in Hc as [H32 H34].
    apply Nat.leb_le in H32.
    apply negb_true_iff, Nat.eqb_neq in H34, H92.
    unfold escape_char.
    repeat match goal with
           | |- context [Nat.eqb ?a ?b] =>
               destruct (Nat.eqb_spec a b); [lia|]
           end.
    destruct (Nat.ltb_spec (nat_of_ascii c) 32); [lia|reflexivity].
Qed.

(** X17: no partial output.  When the sorter raises, the run ends with
    that exception after the extraction was reported; the writer is
    not reached: no directory is created and no file changes. *)
Theorem run_stops_when_sorter_raises (script_dir : path) (w : world)
    (r : response) (msgs : list pyval) (e : exn) :
  env_missing (assoc_get "DISCORD_BOT_TOKEN" (environ w)) = false ->
  env_missing (assoc_get "DISCORD_CHANNEL_ID" (environ w)) = false ->
  remote w (messages_request
              (env_value (assoc_get "DISCORD_BOT_TOKEN" (environ w)))
              (env_value (assoc_get "DISCORD_CHANNEL_ID" (environ w))) 100)
  = Ok r ->
  status_code r = 200 ->
  json r = Ok (PList msgs) ->
  forallb wf_message msgs = true ->
  sort_attachments (flat_map spec_records msgs) = Raise e ->
  fst (main script_dir w) = Raise e
  /\ dirs (snd (main script_dir w)) = dirs w
  /\ files (snd (main script_dir w)) = files w
  /\ last (stdout (snd (main script_dir w))) ""
     = ("Extracted " ++ str_of_nat (total_attachments msgs) ++ " attachments")%string.
Proof.
  intros Ht Hc Hr Hs Hj Hwf Hsort.
  rewrite main_after_credentials by assumption.
  set (tok := env_value (assoc_get "DISCORD_BOT_TOKEN" (environ w))) in *.
  set (ch := env_value (assoc_get "DISCORD_CHANNEL_ID" (environ w))) in *.
  set (w0 := printed w [banner; "Discord File Sync Script"; banner]).
  pose proof (fetch_messages_answer tok ch 100 w0 r Hr) as Ef.
  cbv zeta in Ef. rewrite Hs, Hj in Ef. cbn [Z.eqb Pos.eqb py_len] in Ef.
  rewrite (bind_ok _ _ _ _ _ Ef). cbv beta.
  set (w1 := printed (requested (printed w0 [fetching_line ch 100])
                                (messages_request tok ch 100)) _).
  rewrite (bind_ok _ _ _ _ _ (extract_attachments_wf msgs w1 Hwf)). cbv beta.
  set (w2 := printed w1 _).
  rewrite (bind_raises _ _ w2 e) by (unfold lift; now rewrite Hsort).
  unfold lift. cbn [fst snd]. repeat split.
  unfold w2, printed. cbn [stdout]. apply last_last.
Qed.

Lemma run_stops_when_sorter_raises_witness :
  files (snd (main ["repo"]
                (world_answering
                   (mkResponse 200 "" (Ok (PList [msg_june; msg_undated]))))))
  = [(["repo"; "docs"; "files.json"], "[]")].
Proof.
  apply (run_stops_when_sorter_raises ["repo"]
           (world_answering
              (mkResponse 200 "" (Ok (PList [msg_june; msg_undated]))))
           (mkResponse 200 "" (Ok (PList [msg_june; msg_undated])))
           [msg_june; msg_undated] TypeError); reflexivity.
Defined.
